(** * slashask: a shallow embedding of [ask.py] (class [ShopifyScraper])

    The scraper reads sitemaps, asks a completion service for a JSON
    product record, patches or replaces that record from the page markup,
    and finally rewrites every record into the published schema.

    Python values are embedded as the inductive [value]; dictionaries are
    [gmap string value]; a Python call that may raise is a [result].
    CPython floats are IEEE binary64, embedded with the Standard Library's
    [spec_float] operations at precision 53 and maximal exponent 1024.
    Strings are byte strings; [lower], [strip] and the digit class act on
    the ASCII range and leave every other byte alone. *)

From Stdlib Require Import ZArith String Ascii List Lia DecimalString.
From Stdlib Require Import Floats.SpecFloat.
From stdpp Require Import base strings gmap list.

Set Warnings "-register-all,-abstract-large-number".
Local Open Scope string_scope.

(** ** Exceptions and results *)

Inductive exn :=
| ValueError
| TypeError
| AttributeError
| OverflowError
| JSONDecodeError
| OtherError (msg : string).

Inductive result (A : Type) :=
| Ok (a : A)
| Raise (e : exn).
Arguments Ok {A} a.
Arguments Raise {A} e.

#[global] Instance result_ret : MRet result := λ A a, Ok a.
#[global] Instance result_bind : MBind result := λ A B f m,
  match m with
  | Ok a => f a
  | Raise e => Raise e
  end.

#[global] Instance result_fmap : FMap result := λ A B f m,
  match m with
  | Ok a => Ok (f a)
  | Raise e => Raise e
  end.

(** [try: body / except Exception: handler]. *)
Definition try_except {A} (body : result A) (handler : exn → result A) : result A :=
  match body with
  | Ok a => Ok a
  | Raise e => handler e
  end.

(** ** Strings *)

Definition is_upper (c : ascii) : bool :=
  Nat.leb 65 (nat_of_ascii c) && Nat.leb (nat_of_ascii c) 90.

Definition is_digit (c : ascii) : bool :=
  Nat.leb 48 (nat_of_ascii c) && Nat.leb (nat_of_ascii c) 57.

(** [str.isspace] on the ASCII range: TAB, LF, VT, FF, CR, FS, GS, RS, US
    and the space. *)
Definition is_space (c : ascii) : bool :=
  let n := nat_of_ascii c in
  (Nat.leb 9 n && Nat.leb n 13) || (Nat.leb 28 n && Nat.leb n 32).

Definition lower_ascii (c : ascii) : ascii :=
  if is_upper c then ascii_of_nat (nat_of_ascii c + 32) else c.

(** [s.lower()] *)
Fixpoint lower (s : string) : string :=
  match s with
  | EmptyString => EmptyString
  | String c s' => String (lower_ascii c) (lower s')
  end.

(** [s.startswith(p)] *)
Fixpoint startswith (p s : string) : bool :=
  match p, s with
  | EmptyString, _ => true
  | String _ _, EmptyString => false
  | String a p', String b s' => if Ascii.eqb a b then startswith p' s' else false
  end.

(** [needle in hay] *)
Fixpoint contains (needle hay : string) : bool :=
  startswith needle hay ||
  match hay with
  | EmptyString => false
  | String _ hay' => contains needle hay'
  end.

Fixpoint lstrip (s : string) : string :=
  match s with
  | EmptyString => EmptyString
  | String c s' => if is_space c then lstrip s' else s
  end.

Fixpoint rstrip (s : string) : string :=
  match s with
  | EmptyString => EmptyString
  | String c s' =>
      match rstrip s' with
      | EmptyString => if is_space c then EmptyString else String c EmptyString
      | r => String c r
      end
  end.

(** [s.strip()] *)
Definition strip (s : string) : string := rstrip (lstrip s).

(** The longest prefix of digits, and what follows it. *)
Fixpoint span_digits (s : string) : string * string :=
  match s with
  | EmptyString => (EmptyString, EmptyString)
  | String c s' =>
      if is_digit c
      then let '(d, r) := span_digits s' in (String c d, r)
      else (EmptyString, s)
  end.

Definition all_digits (s : string) : bool :=
  match span_digits s with
  | (_, EmptyString) => true
  | _ => false
  end.

Definition digit_val (c : ascii) : Z := Z.of_nat (nat_of_ascii c) - 48.

Fixpoint digits_acc (acc : Z) (s : string) : Z :=
  match s with
  | EmptyString => acc
  | String c s' => digits_acc (10 * acc + digit_val c) s'
  end.

(** The number a string of decimal digits writes. *)
Definition Z_of_digits (s : string) : Z := digits_acc 0 s.

(** [s.split(sep)[-1]] for a one-character separator: what follows the
    last separator, the whole string when there is none. *)
Fixpoint last_segment (sep : ascii) (s : string) : string :=
  match s with
  | EmptyString => EmptyString
  | String c s' =>
      if Ascii.eqb c sep then last_segment sep s'
      else if contains (String sep EmptyString) s' then last_segment sep s'
      else s
  end.

(** ** Floats (binary64) *)

Definition prec64 : Z := 53.
Definition emax64 : Z := 1024.

(** [float(n)] for an integer of moderate size. *)
Definition float_of_Z (n : Z) : spec_float :=
  binary_normalize prec64 emax64 n 0 false.

(** The binary64 nearest to [n / d] (ties to even), for [0 <= n], [0 < d]. *)
Definition float_of_ratio (n d : Z) : spec_float :=
  match n with
  | Z0 => S754_zero false
  | Zpos _ =>
      let '(m, e, l) := SFdiv_core_binary prec64 emax64 n 0 d 0 in
      binary_round_aux prec64 emax64 false m e l
  | Zneg _ => S754_nan
  end.

(** [x * y] on floats. *)
Definition float_mul (x y : spec_float) : spec_float := SFmul prec64 emax64 x y.

(** [int(x)] for a float: truncation towards zero; [OverflowError] on an
    infinity and [ValueError] on a NaN. *)
Definition int_of_float (x : spec_float) : result Z :=
  match x with
  | S754_zero _ => Ok 0%Z
  | S754_infinity _ => Raise OverflowError
  | S754_nan => Raise ValueError
  | S754_finite s m e =>
      let a := match e with
               | Zneg p => Z.shiftr (Zpos m) (Zpos p)
               | _ => Z.shiftl (Zpos m) e
               end in
      Ok (if s then Z.opp a else a)
  end.

(** Cut a string at its first point. *)
Fixpoint split_point (s : string) : string * option string :=
  match s with
  | EmptyString => (EmptyString, None)
  | String c s' =>
      if Ascii.eqb c "."%char then (EmptyString, Some s')
      else let '(i, f) := split_point s' in (String c i, f)
  end.

(** [float(s)] on the decimal literals [digits], [digits.], [digits.digits]
    and [.digits], correctly rounded as CPython does.  These are the only
    strings the scraper converts (captures of the price pattern); signs,
    exponents, underscores and the [inf]/[nan] spellings are not
    reproduced and count as malformed here. *)
Definition float_of_string (s : string) : result spec_float :=
  let '(ip, fo) := split_point s in
  let fp := default EmptyString fo in
  if all_digits ip && all_digits fp && negb (String.eqb (ip +:+ fp) EmptyString)
  then Ok (float_of_ratio (Z_of_digits (ip +:+ fp)) (10 ^ Z.of_nat (String.length fp)))
  else Raise ValueError.

(** ** Python values *)

(** What [json.loads] can return, which is also what the records hold. *)
Inductive value :=
| VNone
| VBool (b : bool)
| VInt (z : Z)
| VFloat (f : spec_float)
| VStr (s : string)
| VList (l : list value)
| VDict (d : gmap string value).

(** A parsed page element: its attributes, [.string] and [.get_text()]. *)
Record tag := {
  tag_attrs : gmap string string;
  tag_string : option string;
  tag_text : string
}.

(** A parsed page, seen through [soup.select(selector)]. *)
Record soup := { select : string → list tag }.

(** [soup.select_one(selector)] *)
Definition select_one (page : soup) (selector : string) : option tag :=
  head (select page selector).

(** An [xml.etree.ElementTree] element: its tag (a namespaced tag is the
    namespace in braces followed by the local name), its text, its
    children. *)
Inductive xml :=
| Element (tag : string) (text : option string) (children : list xml).

(** The collaborators outside the program: the completion service (given
    the first 12000 characters of the page inside a fixed prompt, it
    answers with the message content), the JSON, HTML and XML parsers, the
    HTTP session, and [repr] of floats, lists and dictionaries (shortest
    round-trip float printing and container printing are left to the
    interpreter). *)
Class Externals := {
  chat_completion : string → result (option string);
  json_loads : string → result value;
  BeautifulSoup : string → result soup;
  session_get : string → result string;
  ET_fromstring : string → result xml;
  py_repr : value → string
}.

(** [bool(v)] *)
Definition truthy (v : value) : bool :=
  match v with
  | VNone => false
  | VBool b => b
  | VInt z => negb (Z.eqb z 0)
  | VFloat (S754_zero _) => false
  | VFloat _ => true
  | VStr s => negb (String.eqb s EmptyString)
  | VList l => match l with [] => false | _ => true end
  | VDict d => negb (Nat.eqb (size d) 0)
  end.

(** [a or b] *)
Definition py_or (a b : value) : value := if truthy a then a else b.

(** [isinstance(v, list)], [isinstance(v, dict)] *)
Definition is_list (v : value) : bool :=
  match v with VList _ => true | _ => false end.
Definition is_dict (v : value) : bool :=
  match v with VDict _ => true | _ => false end.

(** [d.get(k)] and [d.get(k, dflt)] *)
Definition get (d : gmap string value) (k : string) : value :=
  default VNone (d !! k).
Definition get_or (d : gmap string value) (k : string) (dflt : value) : value :=
  default dflt (d !! k).

(** [v == 'text'] and [v == 0] *)
Definition eq_str (v : value) (s : string) : bool :=
  match v with VStr t => String.eqb t s | _ => false end.
Definition eq_zero (v : value) : bool :=
  match v with
  | VInt z => Z.eqb z 0
  | VBool b => negb b
  | VFloat (S754_zero _) => true
  | _ => false
  end.

Definition string_of_Z (z : Z) : string := NilZero.string_of_int (Z.to_int z).

(** [str(v)] *)
Definition py_str `{Externals} (v : value) : string :=
  match v with
  | VNone => "None"
  | VBool true => "True"
  | VBool false => "False"
  | VInt z => string_of_Z z
  | VStr s => s
  | _ => py_repr v
  end.

(** The whitespace [int] skips around a literal. *)
Definition is_space_int (c : ascii) : bool :=
  let n := nat_of_ascii c in (Nat.leb 9 n && Nat.leb n 13) || Nat.eqb n 32.

Fixpoint lskip (s : string) : string :=
  match s with
  | EmptyString => EmptyString
  | String c s' => if is_space_int c then lskip s' else s
  end.

Fixpoint rskip (s : string) : string :=
  match s with
  | EmptyString => EmptyString
  | String c s' =>
      match rskip s' with
      | EmptyString => if is_space_int c then EmptyString else String c EmptyString
      | r => String c r
      end
  end.

(** Digits with single underscores between them; the digits are returned. *)
Fixpoint grouped_digits (s : string) : option string :=
  match s with
  | EmptyString => None
  | String c s' =>
      if is_digit c then
        match s' with
        | EmptyString => Some (String c EmptyString)
        | String "_"%char s'' => String c <$> grouped_digits s''
        | _ => String c <$> grouped_digits s'
        end
      else None
  end.

(** [int(s)] for a string, base 10 (the digit-count limit of recent
    interpreters is not reproduced). *)
Definition int_of_string (s : string) : result Z :=
  let t := rskip (lskip s) in
  let '(neg, body) :=
    match t with
    | String "-"%char r => (true, r)
    | String "+"%char r => (false, r)
    | _ => (false, t)
    end in
  match grouped_digits body with
  | Some ds => Ok (if neg : bool then Z.opp (Z_of_digits ds) else Z_of_digits ds)
  | None => Raise ValueError
  end.

(** [int(v)] *)
Definition py_int (v : value) : result Z :=
  match v with
  | VInt z => Ok z
  | VBool b => Ok (if b then 1 else 0)%Z
  | VFloat f => int_of_float f
  | VStr s => int_of_string s
  | VNone | VList _ | VDict _ => Raise TypeError
  end.

(** [for x in v]: the items iterated, or [TypeError]. *)
Definition py_iter (v : value) : result (list value) :=
  match v with
  | VList l => Ok l
  | VStr s => Ok ((λ c, VStr (String c EmptyString)) <$> list_ascii_of_string s)
  | VDict d => Ok ((λ kv, VStr kv.1) <$> map_to_list d)
  | VNone | VBool _ | VInt _ | VFloat _ => Raise TypeError
  end.

(** ** The normalizer: [_map_availability] and [generate_schema_org_output] *)

Definition InStock : string := "https://schema.org/InStock".
Definition OutOfStock : string := "https://schema.org/OutOfStock".
Definition PreOrder : string := "https://schema.org/PreOrder".

(** The body of [_map_availability] once the argument is a non-empty
    string. *)
Definition map_availability_text (availability : string) : string :=
  let availability_lower := lower availability in
  if contains "in stock" availability_lower || contains "available" availability_lower
  then InStock
  else if contains "out of stock" availability_lower
          || contains "unavailable" availability_lower
  then OutOfStock
  else if contains "pre-order" availability_lower
          || contains "preorder" availability_lower
  then PreOrder
  else InStock.

(** [_map_availability]: a falsy argument gives the default; any other
    argument must have [.lower()]. *)
Definition _map_availability (availability : value) : result string :=
  if negb (truthy availability) then Ok InStock
  else match availability with
       | VStr s => Ok (map_availability_text s)
       | _ => Raise AttributeError
       end.

(** [int(d.get('price', 0)) if d.get('price') else 0] *)
Definition price_cents_of (d : gmap string value) : result Z :=
  if truthy (get d "price") then py_int (get_or d "price" (VInt 0)) else Ok 0%Z.

(** The dictionary literal [normalized_variant]. *)
Definition variant_dict
  (variant_id name sku price_cents availability image_url options : value)
  : gmap string value :=
  <["variant_id" := variant_id]>
  (<["name" := name]>
  (<["sku" := sku]>
  (<["price_cents" := price_cents]>
  (<["availability" := availability]>
  (<["image_url" := image_url]>
  (<["options" := options]> ∅)))))).

(** The dictionary literal [normalized], with its variants filled in. *)
Definition product_dict
  (product_id name description brand category tags url image_urls
     price_cents availability variants : value) : gmap string value :=
  <["product_id" := product_id]>
  (<["name" := name]>
  (<["description" := description]>
  (<["brand" := brand]>
  (<["category" := category]>
  (<["tags" := tags]>
  (<["url" := url]>
  (<["image_urls" := image_urls]>
  (<["price_cents" := price_cents]>
  (<["availability" := availability]>
  (<["variants" := variants]> ∅)))))))))).

(** One turn of the inner loop of [generate_schema_org_output]. *)
Definition normalize_variant `{Externals} (variant : value) : result value :=
  match variant with
  | VDict v =>
      let variant_id := VStr (py_str (get_or v "id" (VStr ""))) in
      let name := py_or (get_or v "name" (VStr "")) (VStr "") in
      let sku := py_or (get_or v "sku" (VStr "")) (VStr "") in
      price_cents ← price_cents_of v;
      availability ← _map_availability (get_or v "availability" (VStr ""));
      let image_url := py_or (get_or v "image" (VStr "")) (VStr "") in
      let options :=
        if is_dict (get_or v "options" (VDict ∅))
        then get_or v "options" (VDict ∅) else VDict ∅ in
      Ok (VDict (variant_dict variant_id name sku (VInt price_cents)
                   (VStr availability) image_url options))
  | _ => Raise AttributeError
  end.

(** One turn of the outer loop of [generate_schema_org_output]: the record
    appended to [products]. *)
Definition normalize_product `{Externals} (product : gmap string value)
  : result (gmap string value) :=
  let product_id := VStr (py_str (get_or product "id" (VStr ""))) in
  let name := py_or (get_or product "name" (VStr "")) (VStr "") in
  let description := py_or (get_or product "description" (VStr "")) (VStr "") in
  let brand := py_or (get_or product "vendor" (VStr "")) (VStr "") in
  let category := py_or (get_or product "type" (VStr "")) (VStr "") in
  let tags :=
    if is_list (get product "tags") then get_or product "tags" (VList []) else VList [] in
  let url := py_or (get_or product "url" (VStr "")) (VStr "") in
  let image_urls :=
    if is_list (get product "images")
    then get_or product "images" (VList []) else VList [] in
  price_cents ← price_cents_of product;
  availability ← _map_availability (get_or product "availability" (VStr ""));
  items ← py_iter (get_or product "variants" (VList []));
  variants ← mapM normalize_variant items;
  Ok (product_dict product_id name description brand category tags url image_urls
        (VInt price_cents) (VStr availability) (VList variants)).

(** [generate_schema_org_output], up to the final [json.dumps]: the list
    serialized under the key [products]. *)
Definition generate_schema_org_output `{Externals}
  (products : list (gmap string value)) : result (list (gmap string value)) :=
  mapM normalize_product products.

(** ** The structural price parser *)

(** One or more digits, an optional point, any further digits, at the
    start of the text: the captured number. *)
Definition match_number (s : string) : option string :=
  let '(d1, r1) := span_digits s in
  match d1 with
  | EmptyString => None
  | _ =>
      match r1 with
      | String "."%char r2 => Some (d1 +:+ "." +:+ (span_digits r2).1)
      | _ => Some d1
      end
  end.

(** The price pattern at the start of the text (an optional dollar sign,
    then the number, which is group 1). *)
Definition match_price_at (s : string) : option string :=
  match s with
  | String "$"%char s' =>
      match match_number s' with
      | Some g => Some g
      | None => match_number s
      end
  | _ => match_number s
  end.

(** [re.search] with the price pattern: group 1 of the leftmost match. *)
Fixpoint search_price (s : string) : option string :=
  match match_price_at s with
  | Some g => Some g
  | None =>
      match s with
      | EmptyString => None
      | String _ s' => search_price s'
      end
  end.

(** [int(float(group) * 100)] *)
Definition cents_of_number (group : string) : result Z :=
  price ← float_of_string group;
  int_of_float (float_mul price (float_of_Z 100)).

(** The price a price text yields: [None] when the pattern finds nothing. *)
Definition parse_price_text (price_text : string) : result (option Z) :=
  match search_price price_text with
  | Some group => Some <$> cents_of_number group
  | None => Ok None
  end.

Definition price_selectors : list string :=
  [".price__regular .price-item--regular";
   ".product__price .price-item--regular";
   "[data-price]";
   ".price"].

(** The price loop shared by [_fallback_extraction] and
    [_apply_fallback_fixes]: the first selector whose element carries a
    parseable price decides; [None] when the loop ends without a [break]. *)
Fixpoint scan_price (page : soup) (selectors : list string) : result (option Z) :=
  match selectors with
  | [] => Ok None
  | selector :: rest =>
      match select_one page selector with
      | Some price_elem =>
          found ← parse_price_text (strip (tag_text price_elem));
          match found with
          | Some cents => Ok (Some cents)
          | None => scan_price page rest
          end
      | None => scan_price page rest
      end
  end.

(** ** The other structural scans *)

Definition name_selectors : list string :=
  ["h1.product-single__title"; ".product__title h1"; "h1[data-product-title]"; "h1"].

Definition img_selectors : list string :=
  [".product__media img"; ".product-single__photo img"; ".product__image img";
   "img[data-src]"; "img[src*=" +:+ String (ascii_of_nat 34) "cdn.shopify.com"
   +:+ String (ascii_of_nat 34) "]"].

Definition desc_selectors : list string :=
  [".product__description"; ".product-single__description";
   "[data-product-description]"; ".rte"].

(** The loops that take the stripped text of the first selector that
    selects anything. *)
Fixpoint first_text (page : soup) (selectors : list string) : option string :=
  match selectors with
  | [] => None
  | selector :: rest =>
      match select_one page selector with
      | Some elem => Some (strip (tag_text elem))
      | None => first_text page rest
      end
  end.

Definition nonempty (s : string) : bool := negb (String.eqb s EmptyString).

(** [element.get(name)] when it is truthy. *)
Definition attr (element : tag) (name : string) : option string :=
  match tag_attrs element !! name with
  | Some a => if nonempty a then Some a else None
  | None => None
  end.

(** [img.get('src') or img.get('data-src')], when truthy. *)
Definition image_src (img : tag) : option string :=
  match attr img "src" with
  | Some src => Some src
  | None => attr img "data-src"
  end.

Definition absolute_src (src : string) : string :=
  if startswith "http" src then src
  else if startswith "//" src then "https:" +:+ src
  else "https://" +:+ src.

(** The inner image loop: the sources appended for one selector. *)
Definition cdn_images (img_elements : list tag) : list string :=
  omap (λ img,
          match image_src img with
          | Some src =>
              if contains "cdn.shopify.com" src then Some (absolute_src src) else None
          | None => None
          end) img_elements.

(** The outer image loop: stop after the first selector that leaves the
    list non-empty. *)
Fixpoint scan_images (page : soup) (selectors : list string) (images : list string)
  : list string :=
  match selectors with
  | [] => images
  | selector :: rest =>
      let images' := (images ++ cdn_images (select page selector))%list in
      match images' with
      | [] => scan_images page rest images'
      | _ => images'
      end
  end.

(** [_extract_variants_from_html] *)
Definition _extract_variants_from_html (page : soup) : list value := [].

(** The longest prefix free of [/] and [?]. *)
Fixpoint span_slug (s : string) : string :=
  match s with
  | EmptyString => EmptyString
  | String c s' =>
      if Ascii.eqb c "/"%char || Ascii.eqb c "?"%char then EmptyString
      else String c (span_slug s')
  end.

(** What follows a prefix. *)
Fixpoint strip_prefix (p s : string) : option string :=
  match p, s with
  | EmptyString, _ => Some s
  | String _ _, EmptyString => None
  | String a p', String b s' => if Ascii.eqb a b then strip_prefix p' s' else None
  end.

(** [re.search] with the pattern [/products/] followed by one or more
    characters other than [/] and [?]: group 1 of the leftmost match. *)
Fixpoint search_product_slug (url : string) : option string :=
  match (match strip_prefix "/products/" url with
         | Some r => match span_slug r with EmptyString => None | g => Some g end
         | None => None
         end) with
  | Some g => Some g
  | None =>
      match url with
      | EmptyString => None
      | String _ url' => search_product_slug url'
      end
  end.

(** ** [_fallback_extraction] *)

Definition default_vendor : string := "Down to Earth Project LLC".

(** The record [_fallback_extraction] starts from. *)
Definition initial_record (url : string) : gmap string value :=
  <["url" := VStr url]>
  (<["vendor" := VStr default_vendor]>
  (<["name" := VStr ""]>
  (<["price" := VInt 0]>
  (<["id" := VNone]>
  (<["gid" := VNone]>
  (<["description" := VStr ""]>
  (<["images" := VList []]>
  (<["availability" := VStr "in stock"]>
  (<["tags" := VList []]>
  (<["type" := VNone]>
  (<["sku" := VNone]>
  (<["variant_id" := VNone]>
  (<["public_title" := VNone]>
  (<["weight" := VNone]>
  (<["dimensions" := VNone]>
  (<["tax_info" := VNone]>
  (<["reviews" := VList []]>
  (<["variants" := VList []]> ∅)))))))))))))))))).

(** [d[k] = v] when the scan found [v], nothing otherwise. *)
Definition set_found (k : string) (found : option value) (d : gmap string value)
  : gmap string value :=
  match found with
  | Some v => <[k := v]> d
  | None => d
  end.

(** The [try] block of [_fallback_extraction]. *)
Definition fallback_scan `{Externals} (html_content url : string)
  : result (gmap string value) :=
  page ← BeautifulSoup html_content;
  let product_data := initial_record url in
  let product_data :=
    set_found "name" (VStr <$> first_text page name_selectors) product_data in
  price ← scan_price page price_selectors;
  let product_data := set_found "price" (VInt <$> price) product_data in
  let product_data :=
    <["images" := VList (VStr <$> scan_images page img_selectors [])]> product_data in
  let product_data :=
    set_found "description" (VStr <$> first_text page desc_selectors) product_data in
  let product_data :=
    match search_product_slug url with
    | Some slug =>
        <["gid" := VStr ("gid://shopify/Product/" +:+ slug)]>
          (<["id" := VStr slug]> product_data)
    | None => product_data
    end in
  Ok (<["variants" := VList (_extract_variants_from_html page)]> product_data).

(** [_fallback_extraction]: the scan, and [None] when it raises. *)
Definition _fallback_extraction `{Externals} (html_content url : string)
  : result (option (gmap string value)) :=
  try_except (Some <$> fallback_scan html_content url) (λ _, Ok None).

(** ** [_apply_fallback_fixes] *)

Definition double_quote : string := String (ascii_of_nat 34) EmptyString.

(** The marker looked for in a script element: the key [@type] and the
    value [Product], both quoted, with a colon between. *)
Definition product_type_marker : string :=
  double_quote +:+ "@type" +:+ double_quote +:+ ":"
  +:+ double_quote +:+ "Product" +:+ double_quote.

Definition id_selectors : list string :=
  ["[data-product-id]"; "[data-product-id]";
   ".product-single__meta [data-product-id]";
   "script[type=" +:+ double_quote +:+ "application/ld+json" +:+ double_quote +:+ "]"].

(** The identifier a JSON-LD script gives, when it gives one: [None] both
    when a test fails and when the bare [except] swallows an error. *)
Definition json_ld_id `{Externals} (text : string) : option string :=
  match json_loads text with
  | Ok (VDict json_data) =>
      if eq_str (get json_data "@type") "Product" && truthy (get json_data "@id")
      then match get json_data "@id" with
           | VStr s => Some (last_segment "/" s)
           | _ => None
           end
      else None
  | _ => None
  end.

(** The inner identifier loop over the elements of one selector:
    [product_id] after it. *)
Fixpoint scan_elements_id `{Externals} (elements : list tag) (product_id : option string)
  : option string :=
  match elements with
  | [] => product_id
  | element :: rest =>
      match attr element "data-product-id" with
      | Some a => Some a
      | None =>
          match tag_string element with
          | Some text =>
              if contains product_type_marker text then
                match json_ld_id text with
                | Some found => Some found
                | None => scan_elements_id rest product_id
                end
              else scan_elements_id rest product_id
          | None => scan_elements_id rest product_id
          end
      end
  end.

(** The outer identifier loop: the inner [break] does not leave it, so
    every selector is visited. *)
Fixpoint scan_product_id `{Externals} (page : soup) (selectors : list string)
  (product_id : option string) : option string :=
  match selectors with
  | [] => product_id
  | selector :: rest =>
      scan_product_id page rest (scan_elements_id (select page selector) product_id)
  end.

Definition fix_vendor (product_data : gmap string value) : gmap string value :=
  if negb (truthy (get product_data "vendor"))
  then <["vendor" := VStr default_vendor]> product_data
  else product_data.

Definition fix_id `{Externals} (page : soup) (product_data : gmap string value)
  : gmap string value :=
  if negb (truthy (get product_data "id")) || eq_str (get product_data "id") "None"
  then match scan_product_id page id_selectors None with
       | Some product_id =>
           if nonempty product_id
           then <["gid" := VStr ("gid://shopify/Product/" +:+ product_id)]>
                  (<["id" := VStr product_id]> product_data)
           else product_data
       | None => product_data
       end
  else product_data.

Definition fix_price (page : soup) (product_data : gmap string value)
  : result (gmap string value) :=
  if negb (truthy (get product_data "price")) || eq_zero (get product_data "price")
  then price ← scan_price page price_selectors;
       Ok (set_found "price" (VInt <$> price) product_data)
  else Ok product_data.

Definition fix_images (page : soup) (product_data : gmap string value)
  : gmap string value :=
  if negb (truthy (get product_data "images")) || negb (is_list (get product_data "images"))
  then <["images" := VList (VStr <$> scan_images page img_selectors [])]> product_data
  else product_data.

Definition fix_description (page : soup) (product_data : gmap string value)
  : gmap string value :=
  if negb (truthy (get product_data "description"))
  then set_found "description" (VStr <$> first_text page desc_selectors) product_data
  else product_data.

Definition fix_variants (page : soup) (product_data : gmap string value)
  : gmap string value :=
  if negb (truthy (get product_data "variants"))
     || negb (is_list (get product_data "variants"))
     || negb (truthy (get product_data "variants"))
  then <["variants" := VList (_extract_variants_from_html page)]> product_data
  else product_data.

(** [_apply_fallback_fixes] *)
Definition _apply_fallback_fixes `{Externals}
  (product_data : gmap string value) (html_content url : string)
  : result (gmap string value) :=
  page ← BeautifulSoup html_content;
  let product_data := fix_vendor product_data in
  let product_data := fix_id page product_data in
  product_data ← fix_price page product_data;
  let product_data := fix_images page product_data in
  let product_data := fix_description page product_data in
  Ok (fix_variants page product_data).

(** ** [extract_product_data_with_gpt] *)

(** The longest prefix that ends with a closing brace. *)
Fixpoint upto_last_brace (s : string) : option string :=
  match s with
  | EmptyString => None
  | String c s' =>
      match upto_last_brace s' with
      | Some r => Some (String c r)
      | None => if Ascii.eqb c "}"%char then Some (String c EmptyString) else None
      end
  end.

(** [re.search] with the pattern "opening brace, anything, closing brace"
    under [re.DOTALL]: from the first opening brace to the last closing
    brace after it. *)
Fixpoint search_json_object (content : string) : option string :=
  match content with
  | EmptyString => None
  | String c rest =>
      if Ascii.eqb c "{"%char then
        match upto_last_brace rest with
        | Some r => Some (String c r)
        | None => search_json_object rest
        end
      else search_json_object rest
  end.

(** [s[:n]] *)
Fixpoint string_take (n : nat) (s : string) : string :=
  match n, s with
  | S n', String c s' => String c (string_take n' s')
  | _, _ => EmptyString
  end.

Arguments string_take : simpl never.

(** [v[k] = x]: item assignment with a string key needs a dictionary. *)
Definition set_item (v : value) (k : string) (x : value) : result (gmap string value) :=
  match v with
  | VDict d => Ok (<[k := x]> d)
  | _ => Raise TypeError
  end.

(** The [try] block of [extract_product_data_with_gpt]. *)
Definition primary_attempt `{Externals} (html_content url : string)
  : result (option (gmap string value)) :=
  message ← chat_completion (string_take 12000 html_content);
  content ← match message with
            | Some text => Ok (strip text)
            | None => Raise AttributeError
            end;
  match search_json_object content with
  | Some json_match =>
      parsed ← json_loads json_match;
      product_data ← set_item parsed "url" (VStr url);
      product_data ← _apply_fallback_fixes product_data html_content url;
      Ok (Some product_data)
  | None => _fallback_extraction html_content url
  end.

(** [extract_product_data_with_gpt] *)
Definition extract_product_data_with_gpt `{Externals} (html_content url : string)
  : result (option (gmap string value)) :=
  try_except (primary_attempt html_content url)
             (λ _, _fallback_extraction html_content url).

(** ** [get_product_urls_from_sitemap] *)

Definition xml_tag (e : xml) : string := match e with Element t _ _ => t end.
Definition xml_text (e : xml) : option string := match e with Element _ t _ => t end.
Definition xml_children (e : xml) : list xml := match e with Element _ _ cs => cs end.

(** Every element below [e], in document order. *)
Fixpoint descendants (e : xml) : list xml :=
  match e with
  | Element _ _ children =>
      (fix go (cs : list xml) : list xml :=
         match cs with
         | [] => []
         | c :: cs' => (c :: descendants c) ++ go cs'
         end)%list children
  end.

(** [root.findall('.//' + name)] *)
Definition findall (root : xml) (name : string) : list xml :=
  filter (λ e, xml_tag e = name) (descendants root).

(** [elem.find(name)]: the first child with that tag. *)
Definition find (elem : xml) (name : string) : option xml :=
  head (filter (λ e, xml_tag e = name) (xml_children elem)).

Definition sitemap_ns : string := "{http://www.sitemaps.org/schemas/sitemap/0.9}".
Definition legacy_ns : string := "{http://www.google.com/schemas/sitemap/0.84}".

Definition namespaces : list string := [sitemap_ns; ""; legacy_ns].

(** [any(pattern in url_text.lower() for pattern in [...])] *)
Definition is_product_url (url_text : string) : bool :=
  contains "/products/" (lower url_text) || contains "/product/" (lower url_text).

(** The inner loop: the product URLs of the [url] elements found. *)
Definition product_locs (namespace : string) (url_elements : list xml) : list string :=
  omap (λ url_elem,
          match find url_elem (namespace +:+ "loc") with
          | Some loc =>
              match xml_text loc with
              | Some url_text =>
                  if nonempty url_text && is_product_url url_text
                  then Some url_text else None
              | None => None
              end
          | None => None
          end) url_elements.

(** The namespace loop: the first namespace with [url] elements decides. *)
Fixpoint scan_namespaces (root : xml) (candidates : list string) : list string :=
  match candidates with
  | [] => []
  | namespace :: rest =>
      match findall root (namespace +:+ "url") with
      | [] => scan_namespaces root rest
      | url_elements => product_locs namespace url_elements
      end
  end.

(** [get_product_urls_from_sitemap] once the document is parsed. *)
Definition product_urls_of_root (root : xml) : list string :=
  scan_namespaces root namespaces.

(** [get_product_urls_from_sitemap] *)
Definition get_product_urls_from_sitemap `{Externals} (sitemap_url : string)
  : result (list string) :=
  try_except
    (body ← session_get sitemap_url;
     match ET_fromstring body with
     | Ok root => Ok (product_urls_of_root root)
     | Raise _ => Ok []
     end)
    (λ _, Ok []).

(** A sitemap document without its namespace: local names, texts,
    children. *)
Inductive content :=
| Node (name : string) (text : option string) (children : list content).

(** The document [c] written with every element in the namespace form
    [namespace]. *)
Fixpoint encode (namespace : string) (c : content) : xml :=
  match c with
  | Node name text children =>
      Element (namespace +:+ name) text (map (encode namespace) children)
  end.

(** Local names are XML names: they hold no brace. *)
Fixpoint valid_names (c : content) : bool :=
  match c with
  | Node name _ children =>
      negb (contains "{" name) && forallb valid_names children
  end.

Definition content_name (c : content) : string := match c with Node n _ _ => n end.
Definition content_text (c : content) : option string :=
  match c with Node _ t _ => t end.
Definition content_children (c : content) : list content :=
  match c with Node _ _ cs => cs end.

(** Every node below [c], in document order. *)
Fixpoint content_descendants (c : content) : list content :=
  match c with
  | Node _ _ children =>
      (fix go (cs : list content) : list content :=
         match cs with
         | [] => []
         | d :: cs' => (d :: content_descendants d) ++ go cs'
         end)%list children
  end.

(** The product URLs a [url] node lists: the text of its first [loc]
    child, when that text is a product URL. *)
Definition content_locs (url_nodes : list content) : list string :=
  omap (λ url_node,
          match head (filter (λ l, content_name l = "loc") (content_children url_node))
          with
          | Some loc =>
              match content_text loc with
              | Some url_text =>
                  if nonempty url_text && is_product_url url_text
                  then Some url_text else None
              | None => None
              end
          | None => None
          end) url_nodes.

(** The product URLs a document lists, whatever its namespace form. *)
Definition content_product_urls (c : content) : list string :=
  content_locs (filter (λ d, content_name d = "url") (content_descendants c)).

(** A sitemap with two entries, one of them a product page. *)
Definition sample_sitemap : content :=
  Node "urlset" None
    [Node "url" None [Node "loc" (Some "https://shop.example/products/widget") [];
                      Node "lastmod" (Some "2024-01-01") []];
     Node "url" None [Node "loc" (Some "https://shop.example/pages/about") []]].

(** ** [scrape_all_products]: the units of work submitted *)

(** [list(set(all_product_urls))] *)
Definition unique_urls (all_product_urls : list string) : list string :=
  elements (list_to_set all_product_urls : gset string).

(** The URLs [executor.submit(self.scrape_product_parallel, url)] is called
    with, one call per element of the deduplicated list. *)
Definition submitted_urls (all_product_urls : list string) : list string :=
  (λ url, url) <$> unique_urls all_product_urls.

(** ** Stand-ins for the collaborators, to run the program on examples *)

(** A session in which the completion service gives [reply], the JSON
    parser gives [parsed] and every page parses to [page]. *)
Definition scripted (reply : result (option string)) (parsed : result value)
  (page : soup) : Externals :=
  {| chat_completion := λ _, reply;
     json_loads := λ _, parsed;
     BeautifulSoup := λ _, Ok page;
     session_get := λ _, Raise (OtherError "offline");
     ET_fromstring := λ _, Raise (OtherError "offline");
     py_repr := λ _, "<repr>" |}.

Definition blank_page : soup := {| select := λ _, [] |}.

(** No service, no parser, blank pages. *)
Definition offline : Externals :=
  scripted (Raise (OtherError "offline")) (Raise JSONDecodeError) blank_page.

Definition text_tag (text : string) : tag :=
  {| tag_attrs := ∅; tag_string := Some text; tag_text := text |}.

Definition img_tag (src : string) : tag :=
  {| tag_attrs := {["src" := src]}; tag_string := None; tag_text := "" |}.

(** A page with one price element and one product image. *)
Definition sample_page : soup :=
  {| select := λ selector,
       if String.eqb selector ".price" then [text_tag " $150.00 "]
       else if String.eqb selector ".product__media img"
       then [img_tag "//cdn.shopify.com/x.jpg"]
       else [] |}.

(** A record as the extraction stage leaves it, and the record the
    normalizer writes for it. *)
Definition sample_record : gmap string value :=
  <["availability" := VStr "Out of stock"]>
  (<["price" := VInt 15000]>
  (<["name" := VStr "Widget"]>
  (<["gid" := VStr "gid://shopify/Product/widget"]>
  (<["id" := VStr "widget"]>
     (initial_record "https://shop.example/products/widget"))))).

Definition sample_normalized : gmap string value :=
  product_dict (VStr "widget") (VStr "Widget") (VStr "") (VStr default_vendor)
    (VStr "") (VList []) (VStr "https://shop.example/products/widget") (VList [])
    (VInt 15000) (VStr OutOfStock) (VList []).

(** ** Shapes of price texts *)

Fixpoint no_digit (s : string) : bool :=
  match s with
  | EmptyString => true
  | String c s' => negb (is_digit c) && no_digit s'
  end.

(** The next character, if any, is neither a digit nor a point. *)
Definition ends_number (rest : string) : bool :=
  match rest with
  | EmptyString => true
  | String c _ => negb (is_digit c) && negb (Ascii.eqb c "."%char)
  end.

(** The selector selects nothing, or an element whose text holds no
    number. *)
Definition unparseable_at (page : soup) (selector : string) : Prop :=
  match select_one page selector with
  | Some price_elem => search_price (strip (tag_text price_elem)) = None
  | None => True
  end.

(** No price selector yields a parseable price. *)
Definition no_parseable_price (page : soup) : Prop :=
  Forall (unparseable_at page) price_selectors.

(** The keys [_apply_fallback_fixes] assigns. *)
Definition fixed_keys : list string :=
  ["vendor"; "id"; "gid"; "price"; "images"; "description"; "variants"].

(** ** Unusable answers of the completion service *)

(** No part of the answer is a JSON object. *)
Definition no_json_object `{Externals} (content : string) : Prop :=
  ∀ part d, contains part content = true → json_loads part ≠ Ok (VDict d).

(** ** Shapes of normalized records *)

(** A value that [x or ''] leaves alone. *)
Definition clean (x : value) : Prop := py_or x (VStr "") = x.

Definition is_uri (availability : string) : Prop :=
  availability = InStock ∨ availability = OutOfStock ∨ availability = PreOrder.

(** What the inner loop of the normalizer produces. *)
Definition normalized_variant (v : value) : Prop :=
  ∃ variant_id name sku price_cents availability image_url options,
    v = VDict (variant_dict variant_id name sku price_cents (VStr availability)
                 image_url options)
    ∧ clean name ∧ clean sku ∧ is_dict options = true ∧ is_uri availability.

(** What the outer loop of the normalizer produces. *)
Definition normalized_product (r : gmap string value) : Prop :=
  ∃ product_id name description brand category tags url image_urls price_cents
    availability variants,
    r = product_dict product_id name description brand category tags url image_urls
          price_cents (VStr availability) (VList variants)
    ∧ clean name ∧ clean description ∧ is_list tags = true ∧ clean url
    ∧ is_uri availability ∧ Forall normalized_variant variants.

(** Normalized variants and products that carry nothing under the keys the
    normalizer reads but does not write. *)
Definition settled_variant (v : value) : Prop :=
  ∃ name sku availability options,
    v = VDict (variant_dict (VStr "") name sku (VInt 0) (VStr availability)
                 (VStr "") options)
    ∧ clean name ∧ clean sku ∧ is_dict options = true
    ∧ map_availability_text availability = availability.

Definition settled_product (r : gmap string value) : Prop :=
  ∃ name description tags url availability variants,
    r = product_dict (VStr "") name description (VStr "") (VStr "") tags url
          (VList []) (VInt 0) (VStr availability) (VList variants)
    ∧ clean name ∧ clean description ∧ is_list tags = true ∧ clean url
    ∧ map_availability_text availability = availability
    ∧ Forall settled_variant variants.

(** ** [get_sitemap_urls] *)

(** [urllib.parse.urljoin], a collaborator like the others. *)
Class Urllib := { urljoin : string → string → string }.

(** [s.endswith(c)] for one character. *)
Fixpoint endswith_char (c : ascii) (s : string) : bool :=
  match s with
  | EmptyString => false
  | String a s' =>
      match s' with
      | EmptyString => Ascii.eqb a c
      | String _ _ => endswith_char c s'
      end
  end.

(** The inner loop of [get_sitemap_urls]: the texts of the [loc] children
    of the [sitemap] elements found. *)
Definition sitemap_locs (namespace : string) (sitemap_elements : list xml)
  : list string :=
  omap (λ sitemap,
          match find sitemap (namespace +:+ "loc") with
          | Some loc =>
              match xml_text loc with
              | Some url_text => if nonempty url_text then Some url_text else None
              | None => None
              end
          | None => None
          end) sitemap_elements.

(** The namespace loop of [get_sitemap_urls]. *)
Fixpoint scan_sitemap_namespaces (root : xml) (candidates : list string) : list string :=
  match candidates with
  | [] => []
  | namespace :: rest =>
      match findall root (namespace +:+ "sitemap") with
      | [] => scan_sitemap_namespaces root rest
      | sitemap_elements => sitemap_locs namespace sitemap_elements
      end
  end.

(** [get_sitemap_urls] once the document is parsed. *)
Definition sitemap_urls_of_root (root : xml) : list string :=
  scan_sitemap_namespaces root namespaces.

(** [get_sitemap_urls] *)
Definition get_sitemap_urls `{Externals} `{Urllib} (base_url : string)
  : result (list string) :=
  try_except
    (let base_url :=
       if endswith_char "/" base_url then base_url else base_url +:+ "/" in
     let sitemap_url := urljoin base_url "sitemap.xml" in
     body ← session_get sitemap_url;
     match ET_fromstring body with
     | Ok root => Ok (sitemap_urls_of_root root)
     | Raise _ => Ok []
     end)
    (λ _, Ok []).


(** A sitemap index with two leaf sitemaps. *)
Definition sample_index : content :=
  Node "sitemapindex" None
    [Node "sitemap" None [Node "loc" (Some "https://shop.example/sitemap_products_1.xml") []];
     Node "sitemap" None [Node "loc" (Some "https://shop.example/sitemap_pages_1.xml") []]].

(** ** [scrape_product_page] and the rest of [scrape_all_products] *)

(** [scrape_product_page]: fetch the page, extract, and give [None] on a
    falsy result or on any exception. *)
Definition scrape_product_page `{Externals} (url : string)
  : result (option (gmap string value)) :=
  try_except
    (body ← session_get url;
     product_data ← extract_product_data_with_gpt body url;
     match product_data with
     | Some d => if truthy (VDict d) then Ok (Some d) else Ok None
     | None => Ok None
     end)
    (λ _, Ok None).

(** The sitemaps [scrape_all_products] scans: those of the index, or the
    root sitemap itself when the index gives none. *)
Definition sitemaps_to_scan `{Externals} `{Urllib} (base_url : string)
  : result (list string) :=
  sitemap_urls ← get_sitemap_urls base_url;
  Ok (match sitemap_urls with
      | [] => [urljoin base_url "sitemap.xml"]
      | _ => sitemap_urls
      end).

(** [all_product_urls] before deduplication. *)
Definition gather_product_urls `{Externals} `{Urllib} (base_url : string)
  : result (list string) :=
  sitemap_urls ← sitemaps_to_scan base_url;
  found ← mapM get_product_urls_from_sitemap sitemap_urls;
  Ok (concat found).

(** The list [products] after the completion loop, when the futures
    complete in the order [completed]: the truthy results, in that order. *)
Definition completion_loop `{Externals} (completed : list string)
  : list (gmap string value) :=
  omap (λ url,
          match scrape_product_page url with
          | Ok (Some product_data) => Some product_data
          | _ => None
          end) completed.

(** [scrape_all_products] may return [products]: the pool completes the
    submitted URLs in some order, which the program does not choose. *)
Definition scrape_all_products_returns `{Externals} `{Urllib} (base_url : string)
  (products : list (gmap string value)) : Prop :=
  ∃ all_product_urls completed,
    gather_product_urls base_url = Ok all_product_urls
    ∧ completed ≡ₚ submitted_urls all_product_urls
    ∧ products = completion_loop completed.

(** A session that serves fixed pages and documents: [pages] maps a URL to
    its body, [documents] a body to its parsed form. *)
Definition served (pages : string → result string) (documents : string → result xml)
  (page : soup) : Externals :=
  {| chat_completion := λ _, Raise (OtherError "offline");
     json_loads := λ _, Raise JSONDecodeError;
     BeautifulSoup := λ _, Ok page;
     session_get := pages;
     ET_fromstring := documents;
     py_repr := λ _, "<repr>" |}.

(** [urljoin] on the URLs used in the examples: the reference is appended
    to a base that ends with a slash. *)
Definition appending : Urllib := {| urljoin := λ base ref, base +:+ ref |}.

(** ** Shapes used by the further properties *)

(** A float that is not negative: a zero, a finite number or an infinity
    of positive sign, or a NaN. *)
Definition nonneg_float (x : spec_float) : Prop :=
  match x with
  | S754_zero s | S754_infinity s | S754_finite s _ _ => s = false
  | S754_nan => True
  end.

(** The character does not occur in the string. *)
Fixpoint lacks (ch : ascii) (s : string) : bool :=
  match s with
  | EmptyString => true
  | String c s' => negb (Ascii.eqb c ch) && lacks ch s'
  end.

(** The keys of a normalized product and of a normalized variant. *)
Definition product_keys : list string :=
  ["product_id"; "name"; "description"; "brand"; "category"; "tags"; "url";
   "image_urls"; "price_cents"; "availability"; "variants"].

Definition variant_keys : list string :=
  ["variant_id"; "name"; "sku"; "price_cents"; "availability"; "image_url"; "options"].

(** * Properties *)

(** ** Substring search *)

Lemma append_nil_l (q : string) : EmptyString +:+ q = q.
Proof. reflexivity. Qed.

Lemma append_cons (a : ascii) (p q : string) : String a p +:+ q = String a (p +:+ q).
Proof. reflexivity. Qed.

Lemma startswith_app_contains (p q s : string) :
  startswith (p +:+ q) s = true → contains q s = true.
Proof.
  revert s. induction p as [|a p IH]; intros s Hs.
  - rewrite append_nil_l in Hs. destruct s; simpl; rewrite Hs; reflexivity.
  - rewrite append_cons in Hs. simpl in Hs.
    destruct s as [|b s]; [discriminate|].
    destruct (Ascii.eqb a b); [|discriminate].
    simpl. rewrite (IH _ Hs). apply orb_true_r.
Qed.

(** A text that holds [p ++ q] holds [q]. *)
Lemma contains_app_r (p q s : string) :
  contains (p +:+ q) s = true → contains q s = true.
Proof.
  induction s as [|b s IH]; intros Hs.
  - simpl in Hs. rewrite orb_false_r in Hs. exact (startswith_app_contains _ _ _ Hs).
  - change (contains (p +:+ q) (String b s))
      with (startswith (p +:+ q) (String b s) || contains (p +:+ q) s) in Hs.
    apply orb_true_iff in Hs as [Hs|Hs].
    + exact (startswith_app_contains _ _ _ Hs).
    + change (contains q (String b s))
        with (startswith q (String b s) || contains q s).
      rewrite (IH Hs). apply orb_true_r.
Qed.

Lemma contains_empty_hay (needle : string) :
  needle ≠ EmptyString → contains needle EmptyString = false.
Proof. destruct needle; [congruence|reflexivity]. Qed.

(** ** [_map_availability] *)

Lemma map_availability_text_range (s : string) :
  map_availability_text s = InStock ∨ map_availability_text s = OutOfStock
  ∨ map_availability_text s = PreOrder.
Proof.
  unfold map_availability_text.
  repeat match goal with |- context [if ?c then _ else _] => destruct c end; auto.
Qed.

(** Whatever string or [None] comes in, one of the three URIs comes out. *)
Lemma map_availability_total (v : value) :
  (v = VNone ∨ ∃ s, v = VStr s) →
  ∃ uri, _map_availability v = Ok uri
         ∧ (uri = InStock ∨ uri = OutOfStock ∨ uri = PreOrder).
Proof.
  intros [-> | [s ->]]; [exists InStock; auto|].
  unfold _map_availability. destruct (truthy (VStr s)); simpl.
  - eexists; split; [reflexivity|apply map_availability_text_range].
  - exists InStock; auto.
Qed.

Lemma map_availability_in_stock (s : string) :
  contains "in stock" (lower s) || contains "available" (lower s) = true →
  _map_availability (VStr s) = Ok InStock.
Proof.
  intros Hc. unfold _map_availability.
  destruct (truthy (VStr s)); simpl; [|reflexivity].
  unfold map_availability_text. rewrite Hc. reflexivity.
Qed.

(** C1: the claim wants every text that holds "unavailable" mapped to
    OutOfStock; the test for "available" comes first in [_map_availability]
    and such a text always passes it, so the result is InStock and the
    branch for "unavailable" is never taken. *)
Theorem unavailable_maps_to_in_stock (s : string) :
  contains "unavailable" (lower s) = true →
  _map_availability (VStr s) = Ok InStock ∧ InStock ≠ OutOfStock.
Proof.
  intros Hc. split; [|discriminate].
  apply map_availability_in_stock.
  rewrite (contains_app_r "un" "available" _ Hc). apply orb_true_r.
Qed.

Lemma unavailable_maps_to_in_stock_witness :
  contains "unavailable" (lower "Currently Unavailable") = true
  ∧ _map_availability (VStr "Currently Unavailable") = Ok InStock.
Proof.
  split; [reflexivity|].
  apply (unavailable_maps_to_in_stock "Currently Unavailable"). reflexivity.
Defined.

(** ** Results *)

Lemma bind_ok_inv {A B} (m : result A) (f : A → result B) (b : B) :
  m ≫= f = Ok b → ∃ a, m = Ok a ∧ f a = Ok b.
Proof. destruct m as [a|e]; [eauto|discriminate]. Qed.

Lemma fmap_ok_inv {A B} (f : A → B) (m : result A) (b : B) :
  f <$> m = Ok b → ∃ a, m = Ok a ∧ b = f a.
Proof. destruct m as [a|e]; [|discriminate]. intros [= <-]. eauto. Qed.

Lemma try_except_never_raises {A} (body : result A) (a0 : A) :
  ∃ a, try_except body (λ _, Ok a0) = Ok a
       ∧ ∀ e, body = Raise e → a = a0.
Proof.
  destruct body as [a|e]; simpl.
  - exists a. split; [reflexivity|discriminate].
  - exists a0. split; [reflexivity|reflexivity].
Qed.

(** [mapM] succeeds exactly when every call does, position by position. *)
Lemma mapM_ok_lookup {A B} (f : A → result B) (l : list A) (l' : list B) :
  mapM f l = Ok l' →
  ∀ i x, l !! i = Some x → ∃ y, l' !! i = Some y ∧ f x = Ok y.
Proof.
  revert l'. induction l as [|a l IH]; intros l' Hm i x Hi; [destruct i; discriminate|].
  simpl in Hm. apply bind_ok_inv in Hm as (b & Hb & Hm).
  apply bind_ok_inv in Hm as (k & Hk & [= <-]).
  destruct i as [|i]; simpl in *.
  - injection Hi as ->. eauto.
  - exact (IH _ Hk _ _ Hi).
Qed.

Lemma mapM_ok_Forall2 {A B} (f : A → result B) (l : list A) (l' : list B) :
  mapM f l = Ok l' ↔ Forall2 (λ x y, f x = Ok y) l l'.
Proof.
  split.
  - revert l'. induction l as [|a l IH]; intros l' Hm; simpl in Hm.
    + injection Hm as <-. constructor.
    + apply bind_ok_inv in Hm as (b & Hb & Hm).
      apply bind_ok_inv in Hm as (k & Hk & [= <-]).
      constructor; auto.
  - induction 1 as [|x y l l' Hxy _ IH]; simpl; [reflexivity|].
    rewrite Hxy. simpl. rewrite IH. reflexivity.
Qed.

(** ** The normalizer *)

Lemma product_dict_lookups
  (product_id name description brand category tags url image_urls
     price_cents availability variants : value) :
  let d := product_dict product_id name description brand category tags url
             image_urls price_cents availability variants in
  d !! "product_id" = Some product_id ∧ d !! "name" = Some name
  ∧ d !! "description" = Some description ∧ d !! "brand" = Some brand
  ∧ d !! "category" = Some category ∧ d !! "tags" = Some tags
  ∧ d !! "url" = Some url ∧ d !! "image_urls" = Some image_urls
  ∧ d !! "price_cents" = Some price_cents ∧ d !! "availability" = Some availability
  ∧ d !! "variants" = Some variants
  ∧ d !! "id" = None ∧ d !! "vendor" = None ∧ d !! "type" = None
  ∧ d !! "images" = None ∧ d !! "price" = None.
Proof. vm_compute. repeat split. Qed.

Lemma variant_dict_lookups
  (variant_id name sku price_cents availability image_url options : value) :
  let d := variant_dict variant_id name sku price_cents availability image_url options in
  d !! "variant_id" = Some variant_id ∧ d !! "name" = Some name
  ∧ d !! "sku" = Some sku ∧ d !! "price_cents" = Some price_cents
  ∧ d !! "availability" = Some availability ∧ d !! "image_url" = Some image_url
  ∧ d !! "options" = Some options
  ∧ d !! "id" = None ∧ d !! "image" = None ∧ d !! "price" = None.
Proof. vm_compute. repeat split. Qed.

Section Normalizer.
Context `{Externals}.

Lemma normalize_product_inv (product r : gmap string value) :
  normalize_product product = Ok r →
  ∃ price_cents availability items variants,
    price_cents_of product = Ok price_cents
    ∧ _map_availability (get_or product "availability" (VStr "")) = Ok availability
    ∧ py_iter (get_or product "variants" (VList [])) = Ok items
    ∧ mapM normalize_variant items = Ok variants
    ∧ r = product_dict
            (VStr (py_str (get_or product "id" (VStr ""))))
            (py_or (get_or product "name" (VStr "")) (VStr ""))
            (py_or (get_or product "description" (VStr "")) (VStr ""))
            (py_or (get_or product "vendor" (VStr "")) (VStr ""))
            (py_or (get_or product "type" (VStr "")) (VStr ""))
            (if is_list (get product "tags")
             then get_or product "tags" (VList []) else VList [])
            (py_or (get_or product "url" (VStr "")) (VStr ""))
            (if is_list (get product "images")
             then get_or product "images" (VList []) else VList [])
            (VInt price_cents) (VStr availability) (VList variants).
Proof.
  unfold normalize_product. intros Hn.
  apply bind_ok_inv in Hn as (pc & Hpc & Hn).
  apply bind_ok_inv in Hn as (av & Hav & Hn).
  apply bind_ok_inv in Hn as (items & Hit & Hn).
  apply bind_ok_inv in Hn as (vars & Hvars & [= <-]).
  exists pc, av, items, vars. auto.
Qed.

Lemma normalize_variant_inv (variant nv : value) :
  normalize_variant variant = Ok nv →
  ∃ v price_cents availability,
    variant = VDict v
    ∧ price_cents_of v = Ok price_cents
    ∧ _map_availability (get_or v "availability" (VStr "")) = Ok availability
    ∧ nv = VDict (variant_dict
                    (VStr (py_str (get_or v "id" (VStr ""))))
                    (py_or (get_or v "name" (VStr "")) (VStr ""))
                    (py_or (get_or v "sku" (VStr "")) (VStr ""))
                    (VInt price_cents) (VStr availability)
                    (py_or (get_or v "image" (VStr "")) (VStr ""))
                    (if is_dict (get_or v "options" (VDict ∅))
                     then get_or v "options" (VDict ∅) else VDict ∅)).
Proof.
  destruct variant as [| | | | | |v]; try discriminate.
  unfold normalize_variant. intros Hn.
  apply bind_ok_inv in Hn as (pc & Hpc & Hn).
  apply bind_ok_inv in Hn as (av & Hav & [= <-]).
  exists v, pc, av. auto.
Qed.

End Normalizer.

(** ** Frames of the record updates *)

Lemma lookup_set_found_ne (k k' : string) (found : option value) (d : gmap string value) :
  k ≠ k' → set_found k found d !! k' = d !! k'.
Proof. intros Hk. destruct found; simpl; [apply lookup_insert_ne; exact Hk|reflexivity]. Qed.

Lemma initial_record_id (url : string) :
  initial_record url !! "id" = Some VNone ∧ initial_record url !! "price" = Some (VInt 0).
Proof. vm_compute. split; reflexivity. Qed.

Section Fallback.
Context `{Externals}.

Lemma fallback_scan_inv (html_content url : string) (r : gmap string value) :
  fallback_scan html_content url = Ok r →
  ∃ page price,
    BeautifulSoup html_content = Ok page
    ∧ scan_price page price_selectors = Ok price
    ∧ r = <["variants" := VList (_extract_variants_from_html page)]>
            (match search_product_slug url with
             | Some slug =>
                 <["gid" := VStr ("gid://shopify/Product/" +:+ slug)]>
                   (<["id" := VStr slug]>
                      (set_found "description" (VStr <$> first_text page desc_selectors)
                      (<["images" := VList (VStr <$> scan_images page img_selectors [])]>
                      (set_found "price" (VInt <$> price)
                      (set_found "name" (VStr <$> first_text page name_selectors)
                         (initial_record url))))))
             | None =>
                 set_found "description" (VStr <$> first_text page desc_selectors)
                   (<["images" := VList (VStr <$> scan_images page img_selectors [])]>
                   (set_found "price" (VInt <$> price)
                   (set_found "name" (VStr <$> first_text page name_selectors)
                      (initial_record url))))
             end).
Proof.
  unfold fallback_scan. intros Hs.
  apply bind_ok_inv in Hs as (page & Hpage & Hs).
  apply bind_ok_inv in Hs as (price & Hprice & [= <-]).
  exists page, price. split; [exact Hpage|]. split; [exact Hprice|].
  destruct (search_product_slug url); reflexivity.
Qed.

Lemma fallback_extraction_inv (html_content url : string) (r : gmap string value) :
  _fallback_extraction html_content url = Ok (Some r) →
  fallback_scan html_content url = Ok r.
Proof.
  unfold _fallback_extraction.
  destruct (fallback_scan html_content url) as [r'|e]; simpl; congruence.
Qed.

(** A fallback record for a URL without a product slug has a null id. *)
Lemma fallback_without_slug_has_null_id (html_content url : string)
  (r : gmap string value) :
  search_product_slug url = None →
  _fallback_extraction html_content url = Ok (Some r) →
  r !! "id" = Some VNone.
Proof.
  intros Hslug Hf. apply fallback_extraction_inv, fallback_scan_inv in Hf
    as (page & price & _ & _ & ->).
  rewrite Hslug.
  rewrite lookup_insert_ne by discriminate.
  rewrite lookup_set_found_ne by discriminate.
  rewrite lookup_insert_ne by discriminate.
  rewrite !lookup_set_found_ne by discriminate.
  apply initial_record_id.
Qed.

End Fallback.

(** ** Identifiers and prices in the normalized output *)

(** C10: a record whose [id] is null is written with [product_id] equal to
    the four characters "None", and a variant whose [id] is null with
    [variant_id] equal to "None", in the list [generate_schema_org_output]
    serializes; a fallback record for a URL without a product slug is such
    a record. *)
Theorem null_id_is_written_as_None `{Externals} :
  (∀ product r,
     product !! "id" = Some VNone → normalize_product product = Ok r →
     r !! "product_id" = Some (VStr "None"))
  ∧ (∀ product r items i v,
       py_iter (get_or product "variants" (VList [])) = Ok items →
       items !! i = Some (VDict v) → v !! "id" = Some VNone →
       normalize_product product = Ok r →
       ∃ variants nv,
         r !! "variants" = Some (VList variants)
         ∧ variants !! i = Some (VDict nv)
         ∧ nv !! "variant_id" = Some (VStr "None"))
  ∧ (∀ html_content url r,
       search_product_slug url = None →
       _fallback_extraction html_content url = Ok (Some r) →
       r !! "id" = Some VNone)
  ∧ (∀ products out i product,
       generate_schema_org_output products = Ok out →
       products !! i = Some product → product !! "id" = Some VNone →
       ∃ r, out !! i = Some r ∧ r !! "product_id" = Some (VStr "None")).
Proof.
  assert (Hprod : ∀ product r,
     product !! "id" = Some VNone → normalize_product product = Ok r →
     r !! "product_id" = Some (VStr "None")).
  { intros product r Hid Hn.
    apply normalize_product_inv in Hn as (pc & av & items & vars & _ & _ & _ & _ & ->).
    unfold get_or. rewrite Hid. simpl. apply product_dict_lookups. }
  split; [exact Hprod|]. split; [|split].
  - intros product r items i v Hit Hi Hid Hn.
    apply normalize_product_inv in Hn as (pc & av & items' & vars & _ & _ & Hit' & Hm & ->).
    rewrite Hit in Hit'. injection Hit' as <-.
    destruct (mapM_ok_lookup _ _ _ Hm _ _ Hi) as (y & Hy & Hnv).
    apply normalize_variant_inv in Hnv as (v' & pc' & av' & [= <-] & _ & _ & ->).
    eexists _, _. split; [apply product_dict_lookups|]. split; [exact Hy|].
    unfold get_or. rewrite Hid. simpl. apply variant_dict_lookups.
  - intros html_content url r. apply fallback_without_slug_has_null_id.
  - intros products out i product Hout Hi Hid.
    destruct (mapM_ok_lookup _ _ _ Hout _ _ Hi) as (r & Hr & Hn).
    exists r. split; [exact Hr|]. exact (Hprod _ _ Hid Hn).
Qed.

Lemma null_id_is_written_as_None_witness :
  let E := scripted (Ok None) (Ok VNone) sample_page in
  let url := "https://shop.example/product/widget" in
  let product : gmap string value :=
    <["price" := VInt 15000]>
      (<["images" := VList [VStr "https://cdn.shopify.com/x.jpg"]]> (initial_record url)) in
  search_product_slug url = None
  ∧ @_fallback_extraction E "<html>" url = Ok (Some product)
  ∧ ∃ r, @normalize_product E product = Ok r
         ∧ r !! "product_id" = Some (VStr "None").
Proof.
  intros E url product.
  assert (Hslug : search_product_slug url = None) by (vm_compute; reflexivity).
  assert (Hf : @_fallback_extraction E "<html>" url = Ok (Some product))
    by reflexivity.
  split; [exact Hslug|]. split; [exact Hf|].
  exists (product_dict (VStr "None") (VStr "") (VStr "") (VStr default_vendor) (VStr "")
            (VList []) (VStr url) (VList [VStr "https://cdn.shopify.com/x.jpg"])
            (VInt 15000) (VStr InStock) (VList [])).
  assert (Hn : @normalize_product E product
               = Ok (product_dict (VStr "None") (VStr "") (VStr "")
                       (VStr default_vendor) (VStr "") (VList []) (VStr url)
                       (VList [VStr "https://cdn.shopify.com/x.jpg"])
                       (VInt 15000) (VStr InStock) (VList [])))
    by reflexivity.
  split; [exact Hn|].
  destruct (@null_id_is_written_as_None E) as (Hp & _ & Hfb & _).
  apply (Hp product _); [|exact Hn].
  exact (Hfb "<html>" url product Hslug Hf).
Defined.

Lemma price_cents_of_falsy (record : gmap string value) :
  truthy (get record "price") = false → price_cents_of record = Ok 0%Z.
Proof. intros Hf. unfold price_cents_of. rewrite Hf. reflexivity. Qed.

Lemma price_cents_of_int (record : gmap string value) (z : Z) :
  record !! "price" = Some (VInt z) → price_cents_of record = Ok z.
Proof.
  intros Hp. unfold price_cents_of, get, get_or. rewrite Hp. simpl.
  destruct (Z.eqb_spec z 0) as [->|Hz]; reflexivity.
Qed.

Lemma price_cents_of_bad_string (record : gmap string value) (s : string) :
  record !! "price" = Some (VStr s) → s ≠ EmptyString →
  int_of_string s = Raise ValueError → price_cents_of record = Raise ValueError.
Proof.
  intros Hp Hs Hint. unfold price_cents_of, get, get_or. rewrite Hp. simpl.
  destruct (String.eqb_spec s EmptyString) as [->|_]; [congruence|exact Hint].
Qed.

(** C3, as the code has it: when the normalizer succeeds on a product or
    variant record, [price_cents] is the integer [price_cents_of] computes:
    0 for an absent or falsy price (null, 0, empty), [int(price)] otherwise,
    so an integer price [z] is written as [z], negative or not; when
    [int(price)] raises, as it does on a non-numeric string, the normalizer
    raises the same error and writes nothing. *)
Theorem price_cents_follows_price `{Externals} (record : gmap string value) :
  (∀ r, normalize_product record = Ok r →
        ∃ c, price_cents_of record = Ok c ∧ r !! "price_cents" = Some (VInt c))
  ∧ (∀ nv, normalize_variant (VDict record) = Ok nv →
           ∃ c d, price_cents_of record = Ok c ∧ nv = VDict d
                  ∧ d !! "price_cents" = Some (VInt c))
  ∧ (record !! "price" = None ∨ truthy (get record "price") = false →
     price_cents_of record = Ok 0%Z)
  ∧ (∀ z, record !! "price" = Some (VInt z) → price_cents_of record = Ok z)
  ∧ (∀ s, record !! "price" = Some (VStr s) → s ≠ EmptyString →
          int_of_string s = Raise ValueError →
          price_cents_of record = Raise ValueError)
  ∧ (∀ e, price_cents_of record = Raise e →
          normalize_product record = Raise e
          ∧ normalize_variant (VDict record) = Raise e).
Proof.
  repeat split.
  - intros r Hn.
    apply normalize_product_inv in Hn as (pc & av & items & vars & Hpc & _ & _ & _ & ->).
    exists pc. split; [exact Hpc|apply product_dict_lookups].
  - intros nv Hn.
    apply normalize_variant_inv in Hn as (v & pc & av & [= <-] & Hpc & _ & ->).
    eexists pc, _. split; [exact Hpc|]. split; [reflexivity|apply variant_dict_lookups].
  - intros [Hp|Hp]; apply price_cents_of_falsy; [|exact Hp].
    unfold get. rewrite Hp. reflexivity.
  - apply price_cents_of_int.
  - apply price_cents_of_bad_string.
  - match goal with Hr : price_cents_of record = Raise _ |- _ =>
      unfold normalize_product; rewrite Hr; reflexivity end.
  - match goal with Hr : price_cents_of record = Raise _ |- _ =>
      unfold normalize_variant; rewrite Hr; reflexivity end.
Qed.

Lemma price_cents_follows_price_witness :
  let record : gmap string value := <["price" := VInt 15000]> ∅ in
  record !! "price" = Some (VInt 15000) ∧ price_cents_of record = Ok 15000%Z.
Proof.
  intros record. split; [reflexivity|].
  destruct (@price_cents_follows_price offline record) as (_ & _ & _ & Hint & _).
  apply Hint. reflexivity.
Defined.

(** C3 fails as stated: a price of -5 is written as -5, and on the price
    "N/A" the normalizer raises [ValueError] instead of writing 0; the same
    holds for a variant. *)
Lemma price_cents_counterexample :
  (@normalize_product offline (<["price" := VInt (-5)]> ∅) ≫= λ r, Ok (r !! "price_cents"))
    = Ok (Some (VInt (-5)))
  ∧ @normalize_product offline (<["price" := VStr "N/A"]> ∅) = Raise ValueError
  ∧ @normalize_variant offline (VDict (<["price" := VStr "N/A"]> ∅)) = Raise ValueError.
Proof. vm_compute. repeat split. Qed.

(** ** Normalizing what is already normalized *)

Lemma py_or_clean (x : value) : clean (py_or x (VStr "")).
Proof.
  unfold clean, py_or. destruct (truthy x) eqn:Hx; [rewrite Hx|]; reflexivity.
Qed.

Lemma map_availability_str (s : string) :
  _map_availability (VStr s) = Ok (map_availability_text s).
Proof.
  unfold _map_availability. simpl.
  destruct (String.eqb_spec s EmptyString) as [->|_]; reflexivity.
Qed.

Lemma map_availability_ok_uri (v : value) (availability : string) :
  _map_availability v = Ok availability → is_uri availability.
Proof.
  unfold _map_availability.
  destruct (truthy v); simpl; [|intros [= <-]; left; reflexivity].
  destruct v; try discriminate. intros [= <-]. apply map_availability_text_range.
Qed.

Lemma map_availability_text_settles (availability : string) :
  is_uri availability →
  map_availability_text (map_availability_text availability)
  = map_availability_text availability.
Proof. intros [-> | [-> | ->]]; reflexivity. Qed.

Lemma mapM_each {A B} (f : A → result B) (Q : B → Prop) (l : list A) :
  Forall (λ x, ∃ y, f x = Ok y ∧ Q y) l → ∃ l', mapM f l = Ok l' ∧ Forall Q l'.
Proof.
  induction 1 as [|x l (y & Hy & HQ) _ (l' & Hl' & HQl)]; simpl.
  - exists []. split; [reflexivity|constructor].
  - exists (y :: l'). rewrite Hy. simpl. rewrite Hl'. split; [reflexivity|].
    constructor; assumption.
Qed.

Lemma mapM_fixed {A} (f : A → result A) (l : list A) :
  Forall (λ x, f x = Ok x) l → mapM f l = Ok l.
Proof.
  induction 1 as [|x l Hx _ IH]; simpl; [reflexivity|].
  rewrite Hx. simpl. rewrite IH. reflexivity.
Qed.

Lemma mapM_ok_Forall {A B} (f : A → result B) (Q : B → Prop) (l : list A) (l' : list B) :
  (∀ x y, f x = Ok y → Q y) → mapM f l = Ok l' → Forall Q l'.
Proof.
  intros HQ Hm. apply mapM_ok_Forall2 in Hm.
  induction Hm; constructor; eauto.
Qed.

Section Renormalize.
Context `{Externals}.

Lemma renormalize_variant
  (variant_id name sku price_cents image_url options : value) (availability : string) :
  normalize_variant
    (VDict (variant_dict variant_id name sku price_cents (VStr availability)
              image_url options))
  = Ok (VDict (variant_dict (VStr "") (py_or name (VStr "")) (py_or sku (VStr ""))
                 (VInt 0) (VStr (map_availability_text availability)) (VStr "")
                 (if is_dict options then options else VDict ∅))).
Proof.
  destruct (variant_dict_lookups variant_id name sku price_cents (VStr availability)
              image_url options)
    as (_ & Hname & Hsku & _ & Hav & _ & Hopt & Hid & Himg & Hprice).
  unfold normalize_variant, price_cents_of, get, get_or.
  rewrite Hname, Hsku, Hav, Hopt, Hid, Himg, Hprice. simpl.
  rewrite map_availability_str. reflexivity.
Qed.

Lemma renormalize_product
  (product_id name description brand category tags url image_urls price_cents : value)
  (availability : string) (variants : list value) :
  normalize_product
    (product_dict product_id name description brand category tags url image_urls
       price_cents (VStr availability) (VList variants))
  = (normalized ← mapM normalize_variant variants;
     Ok (product_dict (VStr "") (py_or name (VStr "")) (py_or description (VStr ""))
           (VStr "") (VStr "") (if is_list tags then tags else VList [])
           (py_or url (VStr "")) (VList []) (VInt 0)
           (VStr (map_availability_text availability)) (VList normalized))).
Proof.
  destruct (product_dict_lookups product_id name description brand category tags url
              image_urls price_cents (VStr availability) (VList variants))
    as (_ & Hname & Hdesc & _ & _ & Htags & Hurl & _ & _ & Hav & Hvars
        & Hid & Hvendor & Htype & Himages & Hprice).
  unfold normalize_product, price_cents_of, get, get_or.
  rewrite Hname, Hdesc, Htags, Hurl, Hav, Hvars, Hid, Hvendor, Htype, Himages, Hprice.
  simpl. rewrite map_availability_str. reflexivity.
Qed.

Lemma normalize_variant_normalized (variant nv : value) :
  normalize_variant variant = Ok nv → normalized_variant nv.
Proof.
  intros Hn. apply normalize_variant_inv in Hn as (v & pc & av & _ & _ & Hav & ->).
  eexists _, _, _, _, _, _, _. split; [reflexivity|].
  split; [apply py_or_clean|]. split; [apply py_or_clean|].
  split; [|exact (map_availability_ok_uri _ _ Hav)].
  destruct (is_dict (get_or v "options" (VDict ∅))) eqn:Hd; [exact Hd|reflexivity].
Qed.

Lemma normalize_product_normalized (product r : gmap string value) :
  normalize_product product = Ok r → normalized_product r.
Proof.
  intros Hn.
  apply normalize_product_inv in Hn as (pc & av & items & vars & _ & Hav & _ & Hm & ->).
  eexists _, _, _, _, _, _, _, _, _, _, _. split; [reflexivity|].
  split; [apply py_or_clean|]. split; [apply py_or_clean|].
  split; [|split; [apply py_or_clean|split]].
  - destruct (is_list (get product "tags")) eqn:Hl; [|reflexivity].
    unfold get in Hl. unfold get_or.
    destruct (product !! "tags") as [t|]; [exact Hl|discriminate].
  - exact (map_availability_ok_uri _ _ Hav).
  - exact (mapM_ok_Forall _ _ _ _ normalize_variant_normalized Hm).
Qed.

Lemma normalized_variant_settles (v : value) :
  normalized_variant v → ∃ v', normalize_variant v = Ok v' ∧ settled_variant v'.
Proof.
  intros (vid & name & sku & pc & av & img & opts & -> & Hname & Hsku & Hopts & Hav).
  eexists. split; [apply renormalize_variant|].
  eexists _, _, _, _. split; [reflexivity|].
  split; [apply py_or_clean|]. split; [apply py_or_clean|].
  split; [rewrite Hopts; exact Hopts|].
  apply map_availability_text_settles, Hav.
Qed.

Lemma settled_variant_fixed (v : value) :
  settled_variant v → normalize_variant v = Ok v.
Proof.
  intros (name & sku & av & opts & -> & Hname & Hsku & Hopts & Hav).
  rewrite renormalize_variant, Hname, Hsku, Hopts, Hav. reflexivity.
Qed.

Lemma normalized_product_settles (r : gmap string value) :
  normalized_product r →
  ∃ r', normalize_product r = Ok r' ∧ settled_product r'
        ∧ r' !! "name" = r !! "name"
        ∧ r' !! "description" = r !! "description"
        ∧ r' !! "tags" = r !! "tags" ∧ r' !! "url" = r !! "url".
Proof.
  intros (pid & name & desc & brand & cat & tags & url & imgs & pc & av & vars
          & -> & Hname & Hdesc & Htags & Hurl & Hav & Hvars).
  destruct (mapM_each normalize_variant settled_variant vars) as (vars' & Hm & Hs).
  { eapply Forall_impl; [exact Hvars|]. exact normalized_variant_settles. }
  eexists. split; [rewrite renormalize_product, Hm; reflexivity|].
  rewrite Hname, Hdesc, Hurl, Htags.
  split.
  - eexists _, _, _, _, _, _. split; [reflexivity|].
    repeat (split; [assumption|]). split; [|exact Hs].
    apply map_availability_text_settles, Hav.
  - repeat split; vm_compute; reflexivity.
Qed.

Lemma settled_product_fixed (r : gmap string value) :
  settled_product r → normalize_product r = Ok r.
Proof.
  intros (name & desc & tags & url & av & vars
          & -> & Hname & Hdesc & Htags & Hurl & Hav & Hvars).
  rewrite renormalize_product, Hname, Hdesc, Htags, Hurl, Hav.
  rewrite (mapM_fixed normalize_variant vars); [reflexivity|].
  eapply Forall_impl; [exact Hvars|]. exact settled_variant_fixed.
Qed.

End Renormalize.

(** C2, as the code has it: the normalizer reads the keys of the extraction
    stage ([id], [vendor], [type], [images], [price]), which a normalized
    record does not have, so a second pass is not the identity; it succeeds,
    keeps [name], [description], [tags] and [url], resets [product_id],
    [brand] and [category] to the empty string, [image_urls] to the empty
    list and [price_cents] to 0, and what it returns is left unchanged by
    every further pass. *)
Theorem normalization_settles_on_second_pass `{Externals}
  (record r : gmap string value) :
  normalize_product record = Ok r →
  ∃ r', normalize_product r = Ok r'
        ∧ normalize_product r' = Ok r'
        ∧ r' !! "name" = r !! "name"
        ∧ r' !! "description" = r !! "description"
        ∧ r' !! "tags" = r !! "tags"
        ∧ r' !! "url" = r !! "url"
        ∧ r' !! "product_id" = Some (VStr "")
        ∧ r' !! "brand" = Some (VStr "")
        ∧ r' !! "category" = Some (VStr "")
        ∧ r' !! "image_urls" = Some (VList [])
        ∧ r' !! "price_cents" = Some (VInt 0).
Proof.
  intros Hn. apply normalize_product_normalized, normalized_product_settles in Hn
    as (r' & Hr' & Hs & Hname & Hdesc & Htags & Hurl).
  exists r'. split; [exact Hr'|].
  split; [exact (settled_product_fixed _ Hs)|].
  repeat (split; [assumption|]).
  destruct Hs as (name & desc & tags & url & av & vars & -> & _).
  repeat split; apply product_dict_lookups.
Qed.

Lemma normalization_settles_on_second_pass_witness :
  @normalize_product offline sample_record = Ok sample_normalized
  ∧ ∃ r', @normalize_product offline sample_normalized = Ok r'
          ∧ @normalize_product offline r' = Ok r'
          ∧ r' !! "name" = Some (VStr "Widget")
          ∧ r' !! "product_id" = Some (VStr "").
Proof.
  assert (Hn : @normalize_product offline sample_record = Ok sample_normalized)
    by reflexivity.
  split; [exact Hn|].
  destruct (@normalization_settles_on_second_pass offline _ _ Hn)
    as (r' & H1 & H2 & Hname & _ & _ & _ & Hid & _).
  exists r'. split; [exact H1|]. split; [exact H2|].
  split; [rewrite Hname; vm_compute; reflexivity|exact Hid].
Defined.

(** C2 fails as stated: [sample_normalized] is a record the normalizer
    wrote, and normalizing it again loses its product_id, brand, price and
    availability. *)
Lemma normalization_not_idempotent :
  @normalize_product offline sample_record = Ok sample_normalized
  ∧ @normalize_product offline sample_normalized
    = Ok (product_dict (VStr "") (VStr "Widget") (VStr "") (VStr "") (VStr "")
            (VList []) (VStr "https://shop.example/products/widget") (VList [])
            (VInt 0) (VStr InStock) (VList []))
  ∧ @normalize_product offline sample_normalized ≠ Ok sample_normalized.
Proof.
  split; [reflexivity|].
  split; [reflexivity|].
  intros Heq.
  assert (Hid : (@normalize_product offline sample_normalized
                   ≫= λ r, Ok (r !! "product_id")) = Ok (Some (VStr "widget")))
    by (rewrite Heq; vm_compute; reflexivity).
  vm_compute in Hid. discriminate Hid.
Qed.

(** ** The price pattern *)

Lemma span_digits_app (d rest : string) :
  all_digits d = true →
  match rest with String c _ => is_digit c = false | EmptyString => True end →
  span_digits (d +:+ rest) = (d, rest).
Proof.
  unfold all_digits. induction d as [|c d IH]; intros Hd Hrest.
  - rewrite append_nil_l. destruct rest as [|c r]; simpl; [reflexivity|].
    rewrite Hrest. reflexivity.
  - rewrite append_cons. simpl in *. destruct (is_digit c); [|discriminate].
    destruct (span_digits d) as [d1 r1] eqn:Hsp.
    rewrite IH; [reflexivity| |exact Hrest]. exact Hd.
Qed.

(** At a run of digits followed by neither a digit nor a point, the number
    pattern captures exactly the run. *)
Lemma match_number_run (d rest : string) :
  all_digits d = true → d ≠ EmptyString → ends_number rest = true →
  match_number (d +:+ rest) = Some d.
Proof.
  intros Hd Hne Hrest. unfold match_number. rewrite span_digits_app; [|exact Hd|].
  - destruct d; [congruence|]. destruct rest as [|c r]; [reflexivity|].
    simpl in Hrest. apply andb_true_iff in Hrest as [_ Hp].
    destruct c as [[] [] [] [] [] [] [] []]; try reflexivity; discriminate.
  - destruct rest as [|c r]; [exact I|]. simpl in Hrest.
    apply andb_true_iff in Hrest as [Hc _]. destruct (is_digit c); [discriminate|reflexivity].
Qed.

Lemma match_number_not_digit (c : ascii) (s : string) :
  is_digit c = false → match_number (String c s) = None.
Proof. intros Hc. unfold match_number. simpl. rewrite Hc. reflexivity. Qed.

Lemma match_price_at_number (s : string) (g : string) :
  match_number s = Some g → match_price_at s = Some g.
Proof.
  intros Hm. unfold match_price_at. destruct s as [|c s]; [exact Hm|].
  destruct (is_digit c) eqn:Hc.
  - destruct c as [[] [] [] [] [] [] [] []]; try exact Hm; discriminate.
  - rewrite match_number_not_digit in Hm by exact Hc. discriminate.
Qed.

Lemma search_price_unfold (s : string) :
  search_price s = match match_price_at s with
                   | Some g => Some g
                   | None => match s with
                             | EmptyString => None
                             | String _ s' => search_price s'
                             end
                   end.
Proof. destruct s; reflexivity. Qed.

(** The search passes over a prefix without digits and reports what the
    number pattern captures at the first digit. *)
Lemma search_price_skips (pre s g : string) :
  no_digit pre = true → match_number s = Some g →
  search_price (pre +:+ s) = Some g.
Proof.
  intros Hpre Hm. induction pre as [|c pre IH].
  - rewrite append_nil_l, search_price_unfold, (match_price_at_number _ _ Hm).
    reflexivity.
  - rewrite append_cons. simpl in Hpre. apply andb_true_iff in Hpre as [Hc Hpre].
    apply negb_true_iff in Hc. specialize (IH Hpre).
    rewrite search_price_unfold.
    destruct (match_price_at (String c (pre +:+ s))) as [g'|] eqn:Hat; [|exact IH].
    unfold match_price_at in Hat.
    rewrite (match_number_not_digit c _ Hc) in Hat.
    assert (Hd : match_number (pre +:+ s) = Some g').
    { destruct c as [[] [] [] [] [] [] [] []]; try discriminate Hat.
      destruct (match_number (pre +:+ s)); [exact Hat|discriminate]. }
    destruct pre as [|c' pre'].
    + rewrite append_nil_l in Hd. congruence.
    + rewrite append_cons in Hd. simpl in Hpre.
      apply andb_true_iff in Hpre as [Hc' _]. apply negb_true_iff in Hc'.
      rewrite (match_number_not_digit c' _ Hc') in Hd. discriminate.
Qed.

(** C9: the price parser converts the first match of the price pattern and
    nothing else: whatever follows the first run of digits (when it starts
    with neither a digit nor a point) is ignored, so the text "$1,299.00"
    gives 100 cents, the value of its first run "1", and not 129900. *)
Theorem price_parser_reads_first_run_only :
  (∀ pre d rest : string,
     no_digit pre = true → all_digits d = true → d ≠ EmptyString →
     ends_number rest = true →
     parse_price_text (pre +:+ d +:+ rest) = Some <$> cents_of_number d)
  ∧ parse_price_text "$1,299.00" = Ok (Some 100%Z)
  ∧ cents_of_number "1" = Ok 100%Z
  ∧ cents_of_number "1299.00" = Ok 129900%Z.
Proof.
  split; [|vm_compute; repeat split].
  intros pre d rest Hpre Hd Hne Hrest. unfold parse_price_text.
  rewrite (search_price_skips pre (d +:+ rest) d Hpre (match_number_run _ _ Hd Hne Hrest)).
  reflexivity.
Qed.

Lemma price_parser_reads_first_run_only_witness :
  no_digit "$" = true ∧ all_digits "1" = true ∧ ends_number ",299.00" = true
  ∧ parse_price_text ("$" +:+ "1" +:+ ",299.00") = Some <$> cents_of_number "1".
Proof.
  repeat (split; [reflexivity|]).
  apply (proj1 price_parser_reads_first_run_only "$" "1" ",299.00");
    [reflexivity|reflexivity|discriminate|reflexivity].
Defined.

(** ** The price loop *)

Lemma scan_price_unparseable (page : soup) (selectors : list string) :
  Forall (unparseable_at page) selectors → scan_price page selectors = Ok None.
Proof.
  induction 1 as [|selector rest Hsel _ IH]; simpl; [reflexivity|].
  unfold unparseable_at in Hsel.
  destruct (select_one page selector) as [price_elem|]; [|exact IH].
  unfold parse_price_text. rewrite Hsel. simpl. exact IH.
Qed.

Lemma truthy_not_zero (v : value) : truthy v = true → eq_zero v = false.
Proof.
  destruct v as [|b|z|f|s|l|d]; simpl; try reflexivity.
  - intros ->. reflexivity.
  - intros Hz. apply negb_true_iff in Hz. exact Hz.
  - destruct f; simpl; congruence.
Qed.

Lemma get_lookup (d d' : gmap string value) (k : string) :
  d' !! k = d !! k → get d' k = get d k.
Proof. unfold get. intros ->. reflexivity. Qed.

(** ** What each fix touches, and when it touches nothing *)

Section Fixes.
Context `{Externals}.
Implicit Types (page : soup) (d : gmap string value) (k : string).

Lemma fix_vendor_frame d k : k ≠ "vendor" → fix_vendor d !! k = d !! k.
Proof.
  intros Hk. unfold fix_vendor. destruct (negb _); [|reflexivity].
  apply lookup_insert_ne. congruence.
Qed.

Lemma fix_vendor_keep d : truthy (get d "vendor") = true → fix_vendor d = d.
Proof. intros Ht. unfold fix_vendor. rewrite Ht. reflexivity. Qed.

Lemma fix_id_frame page d k : k ≠ "id" → k ≠ "gid" → fix_id page d !! k = d !! k.
Proof.
  intros Hid Hgid. unfold fix_id. destruct (_ || _); [|reflexivity].
  destruct (scan_product_id page id_selectors None) as [product_id|]; [|reflexivity].
  destruct (nonempty product_id); [|reflexivity].
  rewrite !lookup_insert_ne by congruence. reflexivity.
Qed.

Lemma fix_id_keep page d :
  truthy (get d "id") = true → eq_str (get d "id") "None" = false → fix_id page d = d.
Proof. intros Ht Hn. unfold fix_id. rewrite Ht, Hn. reflexivity. Qed.

Lemma fix_price_frame page d d' k :
  fix_price page d = Ok d' → k ≠ "price" → d' !! k = d !! k.
Proof.
  unfold fix_price. destruct (_ || _); [|intros [= <-]; reflexivity].
  intros Hf Hk. apply bind_ok_inv in Hf as (price & _ & [= <-]).
  apply lookup_set_found_ne. congruence.
Qed.

Lemma fix_price_keep page d : truthy (get d "price") = true → fix_price page d = Ok d.
Proof.
  intros Ht. unfold fix_price. rewrite Ht, (truthy_not_zero _ Ht). reflexivity.
Qed.

Lemma fix_price_unparseable page d :
  no_parseable_price page → fix_price page d = Ok d.
Proof.
  intros Hno. unfold fix_price. rewrite (scan_price_unparseable _ _ Hno).
  destruct (_ || _); reflexivity.
Qed.

Lemma fix_images_frame page d k : k ≠ "images" → fix_images page d !! k = d !! k.
Proof.
  intros Hk. unfold fix_images. destruct (_ || _); [|reflexivity].
  apply lookup_insert_ne. congruence.
Qed.

Lemma fix_images_keep page d :
  truthy (get d "images") = true → is_list (get d "images") = true →
  fix_images page d = d.
Proof. intros Ht Hl. unfold fix_images. rewrite Ht, Hl. reflexivity. Qed.

Lemma fix_description_frame page d k :
  k ≠ "description" → fix_description page d !! k = d !! k.
Proof.
  intros Hk. unfold fix_description. destruct (negb _); [|reflexivity].
  apply lookup_set_found_ne. congruence.
Qed.

Lemma fix_description_keep page d :
  truthy (get d "description") = true → fix_description page d = d.
Proof. intros Ht. unfold fix_description. rewrite Ht. reflexivity. Qed.

Lemma fix_variants_frame page d k :
  k ≠ "variants" → fix_variants page d !! k = d !! k.
Proof.
  intros Hk. unfold fix_variants. destruct (_ || _); [|reflexivity].
  apply lookup_insert_ne. congruence.
Qed.

Lemma fix_variants_keep page d :
  truthy (get d "variants") = true → is_list (get d "variants") = true →
  fix_variants page d = d.
Proof. intros Ht Hl. unfold fix_variants. rewrite Ht, Hl. reflexivity. Qed.

Lemma apply_fallback_fixes_inv d html_content url d' :
  _apply_fallback_fixes d html_content url = Ok d' →
  ∃ page d3,
    BeautifulSoup html_content = Ok page
    ∧ fix_price page (fix_id page (fix_vendor d)) = Ok d3
    ∧ d' = fix_variants page (fix_description page (fix_images page d3)).
Proof.
  unfold _apply_fallback_fixes. intros Hf.
  apply bind_ok_inv in Hf as (page & Hpage & Hf).
  apply bind_ok_inv in Hf as (d3 & Hd3 & [= <-]).
  exists page, d3. auto.
Qed.

End Fixes.

(** ** The frame of [_apply_fallback_fixes] *)

Section FixesFrame.
Context `{Externals}.

Ltac other_key := first [assumption | discriminate].

(** C5, as the code has it: [_apply_fallback_fixes] assigns no key outside
    vendor, id, gid, price, images, description and variants, and leaves
    each of these alone when the value it tests is truthy: a truthy
    vendor, a truthy id other than 'None' (and then the gid too), a truthy
    price, a non-empty list of images, a truthy description and a
    non-empty list of variants. *)
Theorem fixes_fill_only_missing_fields
  (product_data : gmap string value) (html_content url : string)
  (fixed : gmap string value) :
  _apply_fallback_fixes product_data html_content url = Ok fixed →
  (∀ k, k ∉ fixed_keys → fixed !! k = product_data !! k)
  ∧ (truthy (get product_data "vendor") = true →
     fixed !! "vendor" = product_data !! "vendor")
  ∧ (truthy (get product_data "id") = true →
     eq_str (get product_data "id") "None" = false →
     fixed !! "id" = product_data !! "id" ∧ fixed !! "gid" = product_data !! "gid")
  ∧ (truthy (get product_data "price") = true →
     fixed !! "price" = product_data !! "price")
  ∧ (truthy (get product_data "images") = true →
     is_list (get product_data "images") = true →
     fixed !! "images" = product_data !! "images")
  ∧ (truthy (get product_data "description") = true →
     fixed !! "description" = product_data !! "description")
  ∧ (truthy (get product_data "variants") = true →
     is_list (get product_data "variants") = true →
     fixed !! "variants" = product_data !! "variants").
Proof.
  intros Hf. apply apply_fallback_fixes_inv in Hf as (page & d3 & _ & Hd3 & ->).
  pose proof (λ k, fix_price_frame _ _ _ k Hd3) as Hprice.
  assert (Hearly : ∀ k, k ≠ "vendor" → k ≠ "id" → k ≠ "gid" → k ≠ "price" →
                        d3 !! k = product_data !! k).
  { intros k ? ? ? ?. rewrite Hprice by other_key.
    rewrite fix_id_frame by other_key. apply fix_vendor_frame. other_key. }
  split; [|split; [|split; [|split; [|split; [|split]]]]].
  - intros k Hk. unfold fixed_keys in Hk.
    rewrite !not_elem_of_cons in Hk.
    destruct Hk as (? & ? & ? & ? & ? & ? & ? & _).
    rewrite fix_variants_frame, fix_description_frame, fix_images_frame by other_key.
    apply Hearly; other_key.
  - intros Ht.
    rewrite fix_variants_frame, fix_description_frame, fix_images_frame by other_key.
    rewrite Hprice by other_key. rewrite fix_id_frame by other_key.
    rewrite fix_vendor_keep by exact Ht. reflexivity.
  - intros Ht Hn.
    assert (Hkeep : fix_id page (fix_vendor product_data) = fix_vendor product_data).
    { apply fix_id_keep;
        rewrite (get_lookup product_data (fix_vendor product_data) "id")
          by (apply fix_vendor_frame; discriminate); assumption. }
    split;
      rewrite fix_variants_frame, fix_description_frame, fix_images_frame by other_key;
      rewrite Hprice by other_key; rewrite Hkeep; apply fix_vendor_frame; discriminate.
  - intros Ht.
    rewrite fix_variants_frame, fix_description_frame, fix_images_frame by other_key.
    assert (Hsame : fix_id page (fix_vendor product_data) !! "price"
                    = product_data !! "price").
    { rewrite fix_id_frame by other_key. apply fix_vendor_frame. discriminate. }
    rewrite fix_price_keep in Hd3
      by (rewrite (get_lookup _ _ _ Hsame); exact Ht).
    injection Hd3 as <-. exact Hsame.
  - intros Ht Hl.
    assert (Hsame : d3 !! "images" = product_data !! "images")
      by (apply Hearly; discriminate).
    rewrite fix_variants_frame, fix_description_frame by other_key.
    rewrite fix_images_keep by (rewrite (get_lookup _ _ _ Hsame); assumption).
    exact Hsame.
  - intros Ht.
    assert (Hsame : fix_images page d3 !! "description" = product_data !! "description").
    { rewrite fix_images_frame by other_key. apply Hearly; discriminate. }
    rewrite fix_variants_frame by other_key.
    rewrite fix_description_keep by (rewrite (get_lookup _ _ _ Hsame); exact Ht).
    exact Hsame.
  - intros Ht Hl.
    assert (Hsame : fix_description page (fix_images page d3) !! "variants"
                    = product_data !! "variants").
    { rewrite fix_description_frame, fix_images_frame by other_key.
      apply Hearly; discriminate. }
    rewrite fix_variants_keep by (rewrite (get_lookup _ _ _ Hsame); assumption).
    exact Hsame.
Qed.

End FixesFrame.

Lemma fixes_fill_only_missing_fields_witness :
  let E := scripted (Ok None) (Ok VNone) sample_page in
  let product_data : gmap string value :=
    <["images" := VList [VStr "https://cdn.shopify.com/a.jpg"]]>
    (<["title" := VStr "Widget"]> (<["price" := VNone]> ∅)) in
  let fixed : gmap string value :=
    <["variants" := VList []]>
    (<["price" := VInt 15000]> (<["vendor" := VStr default_vendor]> product_data)) in
  @_apply_fallback_fixes E product_data "<html>" "https://shop.example/products/w"
    = Ok fixed
  ∧ ("title" ∉ fixed_keys)
  ∧ fixed !! "title" = product_data !! "title"
  ∧ truthy (get product_data "images") = true
  ∧ fixed !! "images" = product_data !! "images".
Proof.
  intros E product_data fixed.
  assert (Hf : @_apply_fallback_fixes E product_data "<html>"
                 "https://shop.example/products/w" = Ok fixed)
    by reflexivity.
  assert (Hk : "title" ∉ fixed_keys).
  { unfold fixed_keys. intros Hin. rewrite !elem_of_cons, elem_of_nil in Hin.
    destruct Hin as [Hin|[Hin|[Hin|[Hin|[Hin|[Hin|[Hin|[]]]]]]]]; discriminate Hin. }
  assert (Ht : truthy (get product_data "images") = true) by (vm_compute; reflexivity).
  assert (Hl : is_list (get product_data "images") = true) by (vm_compute; reflexivity).
  destruct (@fixes_fill_only_missing_fields E _ _ _ _ Hf)
    as (Hframe & _ & _ & _ & Himages & _).
  split; [exact Hf|]. split; [exact Hk|]. split; [exact (Hframe _ Hk)|].
  split; [exact Ht|exact (Himages Ht Hl)].
Defined.

(** C5 fails as stated: an empty-string vendor is not null and an empty
    list of images is list-valued, yet the fixes replace both (here with the
    default vendor and the image the page shows). *)
Lemma fixes_replace_empty_values :
  let E := scripted (Ok None) (Ok VNone) sample_page in
  let product_data : gmap string value :=
    <["images" := VList []]> (<["vendor" := VStr ""]> ∅) in
  (@_apply_fallback_fixes E product_data "<html>" "https://shop.example/products/w"
     ≫= λ fixed, Ok (fixed !! "vendor", fixed !! "images"))
  = Ok (Some (VStr "Down to Earth Project LLC"),
        Some (VList [VStr "https://cdn.shopify.com/x.jpg"]))
  ∧ product_data !! "vendor" = Some (VStr "")
  ∧ product_data !! "images" = Some (VList []).
Proof. vm_compute. repeat split. Qed.

(** ** Prices in the extracted records *)

Lemma lookup_set_found_eq (k : string) (found : option value) (d : gmap string value) :
  set_found k found d !! k = match found with Some v => Some v | None => d !! k end.
Proof. destruct found; simpl; [apply lookup_insert_eq|reflexivity]. Qed.

Section Prices.
Context `{Externals}.

Lemma fallback_price (html_content url : string) (r : gmap string value)
  (page : soup) (found : option Z) :
  BeautifulSoup html_content = Ok page →
  scan_price page price_selectors = Ok found →
  _fallback_extraction html_content url = Ok (Some r) →
  r !! "price" = Some (VInt (default 0%Z found)).
Proof.
  intros Hpage Hscan Hf.
  apply fallback_extraction_inv, fallback_scan_inv in Hf
    as (page' & price & Hpage' & Hprice & ->).
  rewrite Hpage in Hpage'. injection Hpage' as <-.
  rewrite Hscan in Hprice. injection Hprice as <-.
  rewrite lookup_insert_ne by discriminate.
  assert (Hinner :
    set_found "description" (VStr <$> first_text page desc_selectors)
      (<["images" := VList (VStr <$> scan_images page img_selectors [])]>
      (set_found "price" (VInt <$> found)
      (set_found "name" (VStr <$> first_text page name_selectors)
         (initial_record url)))) !! "price" = Some (VInt (default 0%Z found))).
  { rewrite lookup_set_found_ne by discriminate.
    rewrite lookup_insert_ne by discriminate.
    rewrite lookup_set_found_eq. destruct found; [reflexivity|].
    rewrite lookup_set_found_ne by discriminate. apply initial_record_id. }
  destruct (search_product_slug url); [|exact Hinner].
  rewrite !lookup_insert_ne by discriminate. exact Hinner.
Qed.

Lemma fixed_price (product_data : gmap string value) (html_content url : string)
  (fixed : gmap string value) (page : soup) (found : option Z) :
  BeautifulSoup html_content = Ok page →
  scan_price page price_selectors = Ok found →
  truthy (get product_data "price") = false →
  _apply_fallback_fixes product_data html_content url = Ok fixed →
  fixed !! "price" = match found with
                     | Some cents => Some (VInt cents)
                     | None => product_data !! "price"
                     end.
Proof.
  intros Hpage Hscan Hfalsy Hf.
  apply apply_fallback_fixes_inv in Hf as (page' & d3 & Hpage' & Hd3 & ->).
  rewrite Hpage in Hpage'. injection Hpage' as <-.
  rewrite fix_variants_frame, fix_description_frame, fix_images_frame by discriminate.
  assert (Hsame : fix_id page (fix_vendor product_data) !! "price"
                  = product_data !! "price").
  { rewrite fix_id_frame by discriminate. apply fix_vendor_frame. discriminate. }
  unfold fix_price in Hd3. rewrite (get_lookup _ _ _ Hsame), Hfalsy, Hscan in Hd3.
  simpl in Hd3. injection Hd3 as <-.
  rewrite lookup_set_found_eq. destruct found; [reflexivity|exact Hsame].
Qed.

(** C8, as the code has it: the price text "$150.00" is parsed to 15000;
    when no selector yields a parseable price the fallback extractor's
    record has price 0, while the fixup stage leaves the record's price
    field as it found it (absent, null, 0), which the normalizer writes as
    [price_cents] 0. *)
Theorem price_text_to_cents :
  parse_price_text "$150.00" = Ok (Some 15000%Z)
  ∧ (∀ page, no_parseable_price page → scan_price page price_selectors = Ok None)
  ∧ (∀ html_content url r page,
       BeautifulSoup html_content = Ok page → no_parseable_price page →
       _fallback_extraction html_content url = Ok (Some r) →
       r !! "price" = Some (VInt 0))
  ∧ (∀ product_data html_content url fixed page,
       BeautifulSoup html_content = Ok page → no_parseable_price page →
       _apply_fallback_fixes product_data html_content url = Ok fixed →
       fixed !! "price" = product_data !! "price"
       ∧ (truthy (get product_data "price") = false → price_cents_of fixed = Ok 0%Z))
  ∧ (∀ html_content url r page cents,
       BeautifulSoup html_content = Ok page →
       scan_price page price_selectors = Ok (Some cents) →
       _fallback_extraction html_content url = Ok (Some r) →
       r !! "price" = Some (VInt cents))
  ∧ (∀ product_data html_content url fixed page cents,
       BeautifulSoup html_content = Ok page →
       scan_price page price_selectors = Ok (Some cents) →
       truthy (get product_data "price") = false →
       _apply_fallback_fixes product_data html_content url = Ok fixed →
       fixed !! "price" = Some (VInt cents)).
Proof.
  split; [vm_compute; reflexivity|].
  split; [intros page; apply scan_price_unparseable|].
  split; [|split; [|split]].
  - intros html_content url r page Hpage Hno Hf.
    exact (fallback_price _ _ _ _ None Hpage (scan_price_unparseable _ _ Hno) Hf).
  - intros product_data html_content url fixed page Hpage Hno Hf.
    assert (Hsame : fixed !! "price" = product_data !! "price").
    { apply apply_fallback_fixes_inv in Hf as (page' & d3 & Hpage' & Hd3 & ->).
      rewrite Hpage in Hpage'. injection Hpage' as <-.
      rewrite fix_price_unparseable in Hd3 by exact Hno. injection Hd3 as <-.
      rewrite fix_variants_frame, fix_description_frame, fix_images_frame,
        fix_id_frame by discriminate.
      apply fix_vendor_frame. discriminate. }
    split; [exact Hsame|]. intros Hfalsy. apply price_cents_of_falsy.
    rewrite (get_lookup _ _ _ Hsame). exact Hfalsy.
  - intros html_content url r page cents Hpage Hscan Hf.
    exact (fallback_price _ _ _ _ (Some cents) Hpage Hscan Hf).
  - intros product_data html_content url fixed page cents Hpage Hscan Hfalsy Hf.
    exact (fixed_price _ _ _ _ _ (Some cents) Hpage Hscan Hfalsy Hf).
Qed.

End Prices.

Lemma price_text_to_cents_witness :
  let E := scripted (Ok None) (Ok VNone) blank_page in
  let url := "https://shop.example/products/w" in
  let r : gmap string value :=
    <["gid" := VStr "gid://shopify/Product/w"]>
      (<["id" := VStr "w"]> (initial_record url)) in
  no_parseable_price blank_page
  ∧ @_fallback_extraction E "<html>" url = Ok (Some r)
  ∧ r !! "price" = Some (VInt 0).
Proof.
  intros E url r.
  assert (Hno : no_parseable_price blank_page) by (repeat constructor).
  assert (Hf : @_fallback_extraction E "<html>" url = Ok (Some r))
    by reflexivity.
  split; [exact Hno|]. split; [exact Hf|].
  destruct (@price_text_to_cents E) as (_ & _ & Hfb & _).
  exact (Hfb "<html>" url r blank_page eq_refl Hno Hf).
Defined.

(** C8 fails as stated for the fixup stage: a record whose price is null,
    on a page where no selector yields a price, leaves the stage with its
    price still null, not 0. *)
Lemma fixup_leaves_null_price :
  no_parseable_price blank_page
  ∧ (@_apply_fallback_fixes offline (<["price" := VNone]> ∅) "<html>"
       "https://shop.example/products/w" ≫= λ fixed, Ok (fixed !! "price"))
    = Ok (Some VNone).
Proof. split; [repeat constructor|vm_compute; reflexivity]. Qed.

(** ** Falling back to the structural extractor *)

Lemma startswith_cons (c : ascii) (p s : string) :
  startswith (String c p) (String c s) = startswith p s.
Proof. simpl. rewrite Ascii.eqb_refl. reflexivity. Qed.

Lemma upto_last_brace_prefix (s r : string) :
  upto_last_brace s = Some r → startswith r s = true.
Proof.
  revert r. induction s as [|c s IH]; intros r; simpl; [discriminate|].
  destruct (upto_last_brace s) as [r'|].
  - intros [= <-]. rewrite startswith_cons. apply IH. reflexivity.
  - destruct (Ascii.eqb c "}"); [|discriminate].
    intros [= <-]. rewrite startswith_cons. reflexivity.
Qed.

(** What the search returns is a part of the text searched. *)
Lemma search_json_object_part (content json_match : string) :
  search_json_object content = Some json_match → contains json_match content = true.
Proof.
  induction content as [|c rest IH]; simpl; [discriminate|].
  intros Hs.
  assert (Hrest : search_json_object rest = Some json_match →
                  startswith json_match (String c rest) || contains json_match rest = true).
  { intros Hr. rewrite (IH Hr). apply orb_true_r. }
  destruct (Ascii.eqb c "{"); [|exact (Hrest Hs)].
  destruct (upto_last_brace rest) as [r|] eqn:Hr; [|exact (Hrest Hs)].
  injection Hs as <-. rewrite startswith_cons, (upto_last_brace_prefix _ _ Hr).
  reflexivity.
Qed.

Lemma try_except_same {A} (m : result A) : try_except m (λ _, m) = m.
Proof. destruct m; reflexivity. Qed.

Section FallingBack.
Context `{Externals}.

Lemma extract_after_raise (html_content url : string) (e : exn) :
  primary_attempt html_content url = Raise e →
  extract_product_data_with_gpt html_content url
  = _fallback_extraction html_content url.
Proof. intros Hr. unfold extract_product_data_with_gpt. rewrite Hr. reflexivity. Qed.

Lemma extract_without_json (html_content url message : string) :
  chat_completion (string_take 12000 html_content) = Ok (Some message) →
  no_json_object (strip message) →
  extract_product_data_with_gpt html_content url
  = _fallback_extraction html_content url.
Proof.
  intros Hchat Hno.
  destruct (primary_attempt html_content url) as [r|e] eqn:Hp;
    [|exact (extract_after_raise _ _ _ Hp)].
  unfold extract_product_data_with_gpt. rewrite Hp. simpl.
  rewrite <- Hp. unfold primary_attempt in *. rewrite Hchat in *. simpl in *.
  destruct (search_json_object (strip message)) as [json_match|] eqn:Hs;
    [|reflexivity].
  exfalso. pose proof (search_json_object_part _ _ Hs) as Hpart.
  destruct (json_loads json_match) as [parsed|e] eqn:Hj; [|discriminate Hp].
  destruct parsed as [| | | | | |d]; try discriminate Hp.
  exact (Hno json_match d Hpart Hj).
Qed.

(** C4: when the completion service raises, when its answer holds no JSON
    object, when the JSON parser raises on the part matched, or when
    anything else in the [try] block raises, [extract_product_data_with_gpt]
    returns what [_fallback_extraction] returns for the same page and URL;
    and [_fallback_extraction] never raises: it returns a record, or [None]
    when its scan raised. *)
Theorem primary_failure_falls_back (html_content url : string) :
  (∀ e, chat_completion (string_take 12000 html_content) = Raise e →
        extract_product_data_with_gpt html_content url
        = _fallback_extraction html_content url)
  ∧ (∀ message,
       chat_completion (string_take 12000 html_content) = Ok (Some message) →
       no_json_object (strip message) →
       extract_product_data_with_gpt html_content url
       = _fallback_extraction html_content url)
  ∧ (∀ message json_match e,
       chat_completion (string_take 12000 html_content) = Ok (Some message) →
       search_json_object (strip message) = Some json_match →
       json_loads json_match = Raise e →
       extract_product_data_with_gpt html_content url
       = _fallback_extraction html_content url)
  ∧ (∀ e, primary_attempt html_content url = Raise e →
          extract_product_data_with_gpt html_content url
          = _fallback_extraction html_content url)
  ∧ (∃ r, _fallback_extraction html_content url = Ok r
          ∧ ∀ e, fallback_scan html_content url = Raise e → r = None).
Proof.
  split; [|split; [|split; [|split]]].
  - intros e Hchat. apply (extract_after_raise _ _ e).
    unfold primary_attempt. rewrite Hchat. reflexivity.
  - intros message. apply extract_without_json.
  - intros message json_match e Hchat Hs Hj. apply (extract_after_raise _ _ e).
    unfold primary_attempt. rewrite Hchat. simpl. rewrite Hs, Hj. reflexivity.
  - apply extract_after_raise.
  - unfold _fallback_extraction.
    destruct (try_except_never_raises (Some <$> fallback_scan html_content url) None)
      as (r & Hr & Hnone).
    exists r. split; [exact Hr|]. intros e He. apply (Hnone e). rewrite He. reflexivity.
Qed.

End FallingBack.

Lemma primary_failure_falls_back_witness :
  let E := scripted (Ok (Some "Sorry, no product here.")) (Raise JSONDecodeError)
             sample_page in
  let url := "https://shop.example/products/w" in
  let r : gmap string value :=
    <["gid" := VStr "gid://shopify/Product/w"]>
    (<["id" := VStr "w"]>
    (<["price" := VInt 15000]>
    (<["images" := VList [VStr "https://cdn.shopify.com/x.jpg"]]>
       (initial_record url)))) in
  @no_json_object E (strip "Sorry, no product here.")
  ∧ @extract_product_data_with_gpt E "<html>" url = @_fallback_extraction E "<html>" url
  ∧ @_fallback_extraction E "<html>" url = Ok (Some r).
Proof.
  intros E url r.
  assert (Hno : @no_json_object E (strip "Sorry, no product here."))
    by (intros part d _; discriminate).
  split; [exact Hno|]. split; [|reflexivity].
  destruct (@primary_failure_falls_back E "<html>" url) as (_ & Hjson & _).
  exact (Hjson "Sorry, no product here." eq_refl Hno).
Defined.

(** ** Sitemaps and their namespace forms *)

Lemma content_ind' (P : content → Prop) :
  (∀ name text children, Forall P children → P (Node name text children)) →
  ∀ c, P c.
Proof.
  intros HP. fix IH 1. intros [name text children]. apply HP.
  induction children as [|c cs IHcs]; constructor; [apply IH|exact IHcs].
Qed.

Lemma descendants_unfold (tag : string) (text : option string) (children : list xml) :
  descendants (Element tag text children)
  = flat_map (λ c, c :: descendants c) children.
Proof. simpl. induction children as [|c cs IH]; [reflexivity|]. simpl. rewrite IH. reflexivity. Qed.

Lemma content_descendants_unfold (name : string) (text : option string)
  (children : list content) :
  content_descendants (Node name text children)
  = flat_map (λ c, c :: content_descendants c) children.
Proof. simpl. induction children as [|c cs IH]; [reflexivity|]. simpl. rewrite IH. reflexivity. Qed.

Lemma descendants_encode (namespace : string) (c : content) :
  descendants (encode namespace c) = map (encode namespace) (content_descendants c).
Proof.
  induction c as [name text children IH] using content_ind'.
  change (encode namespace (Node name text children))
    with (Element (namespace +:+ name) text (map (encode namespace) children)).
  rewrite descendants_unfold, content_descendants_unfold.
  induction IH as [|c cs Hc _ IHcs]; [reflexivity|].
  simpl. rewrite Hc, IHcs, map_app. reflexivity.
Qed.

Lemma valid_names_descendants (c : content) :
  valid_names c = true → Forall (λ d, valid_names d = true) (content_descendants c).
Proof.
  induction c as [name text children IH] using content_ind'.
  intros Hv. simpl in Hv. apply andb_true_iff in Hv as [_ Hcs].
  rewrite content_descendants_unfold.
  induction IH as [|c cs Hc _ IHcs]; [constructor|].
  simpl in Hcs. apply andb_true_iff in Hcs as [Hvc Hvcs].
  simpl. constructor; [exact Hvc|]. apply Forall_app. split; [exact (Hc Hvc)|exact (IHcs Hvcs)].
Qed.

Lemma valid_names_children (c : content) :
  valid_names c = true → Forall (λ d, valid_names d = true) (content_children c).
Proof.
  destruct c as [name text children]. simpl. intros Hv.
  apply andb_true_iff in Hv as [_ Hcs]. apply Forall_forall. intros d Hd.
  rewrite forallb_forall in Hcs. apply Hcs. apply list_elem_of_In. exact Hd.
Qed.

Lemma valid_names_name (c : content) :
  valid_names c = true → contains "{" (content_name c) = false.
Proof.
  destruct c as [name text children]. simpl. intros Hv.
  apply andb_true_iff in Hv as [Hn _]. apply negb_true_iff in Hn. exact Hn.
Qed.

Lemma append_inj_r (p a b : string) : p +:+ a = p +:+ b → a = b.
Proof.
  induction p as [|c p IH]; [rewrite !append_nil_l; auto|].
  rewrite !append_cons. intros [= Hab]. exact (IH Hab).
Qed.

(** Two namespaced tags with brace-free local names are equal exactly when
    namespace and local name are. *)
Lemma namespaced_tag_eq (ns ns' name local : string) :
  ns ∈ namespaces → ns' ∈ namespaces →
  contains "{" name = false → contains "{" local = false →
  ns +:+ name = ns' +:+ local ↔ ns = ns' ∧ name = local.
Proof.
  intros Hns Hns' Hname Hlocal. split; [|intros [-> ->]; reflexivity].
  unfold namespaces in *. rewrite !elem_of_cons, elem_of_nil in Hns, Hns'.
  destruct Hns as [-> | [-> | [-> | []]]]; destruct Hns' as [-> | [-> | [-> | []]]];
    intros Heq;
    try (split; [reflexivity|exact (append_inj_r _ _ _ Heq)]);
    exfalso; vm_compute in Heq;
    try discriminate Heq;
    try (rewrite Heq in Hname; discriminate Hname);
    try (rewrite <- Heq in Hlocal; discriminate Hlocal).
Qed.

Lemma filter_encode (ns ns' local : string) (l : list content) :
  ns ∈ namespaces → ns' ∈ namespaces → contains "{" local = false →
  Forall (λ d, valid_names d = true) l →
  filter (λ e, xml_tag e = ns' +:+ local) (map (encode ns) l)
  = if decide (ns = ns')
    then map (encode ns) (filter (λ d, content_name d = local) l)
    else [].
Proof.
  intros Hns Hns' Hlocal Hl.
  induction Hl as [|d l Hd _ IH]; [destruct (decide _); reflexivity|].
  pose proof (namespaced_tag_eq ns ns' (content_name d) local Hns Hns'
                (valid_names_name _ Hd) Hlocal) as Htag.
  assert (Hx : xml_tag (encode ns d) = ns +:+ content_name d) by (destruct d; reflexivity).
  rewrite map_cons, filter_cons, Hx, (filter_cons _ d).
  destruct (decide (ns +:+ content_name d = ns' +:+ local)) as [Heq|Hne].
  - apply Htag in Heq as [<- Hn]. rewrite IH.
    destruct (decide (ns = ns)); [|congruence].
    destruct (decide (content_name d = local)); [reflexivity|congruence].
  - rewrite IH. destruct (decide (ns = ns')) as [<-|]; [|reflexivity].
    destruct (decide (content_name d = local)) as [Hn|]; [|reflexivity].
    exfalso. apply Hne. rewrite Hn. reflexivity.
Qed.

Lemma findall_encode (ns ns' : string) (c : content) :
  ns ∈ namespaces → ns' ∈ namespaces → valid_names c = true →
  findall (encode ns c) (ns' +:+ "url")
  = if decide (ns = ns')
    then map (encode ns) (filter (λ d, content_name d = "url") (content_descendants c))
    else [].
Proof.
  intros Hns Hns' Hv. unfold findall. rewrite descendants_encode.
  apply filter_encode; [exact Hns|exact Hns'|reflexivity|].
  exact (valid_names_descendants _ Hv).
Qed.

Lemma find_encode (ns : string) (c : content) :
  ns ∈ namespaces → valid_names c = true →
  find (encode ns c) (ns +:+ "loc")
  = encode ns <$> head (filter (λ l, content_name l = "loc") (content_children c)).
Proof.
  intros Hns Hv. unfold find.
  assert (Hch : xml_children (encode ns c) = map (encode ns) (content_children c))
    by (destruct c; reflexivity).
  rewrite Hch, (filter_encode ns ns "loc" _ Hns Hns eq_refl (valid_names_children _ Hv)).
  destruct (decide (ns = ns)); [|congruence].
  destruct (filter _ (content_children c)); reflexivity.
Qed.

Lemma omap_cons {A B} (f : A → option B) (x : A) (l : list A) :
  omap f (x :: l) = match f x with Some y => y :: omap f l | None => omap f l end.
Proof. reflexivity. Qed.

Lemma product_locs_encode (ns : string) (url_nodes : list content) :
  ns ∈ namespaces → Forall (λ d, valid_names d = true) url_nodes →
  product_locs ns (map (encode ns) url_nodes) = content_locs url_nodes.
Proof.
  intros Hns Hl. unfold product_locs, content_locs.
  induction Hl as [|u l Hu _ IH]; [reflexivity|].
  rewrite map_cons, !omap_cons, IH, (find_encode ns u Hns Hu).
  destruct (head (filter _ (content_children u))) as [loc|]; [|reflexivity].
  destruct loc as [name text children]. reflexivity.
Qed.

Lemma Forall_filter_valid (l : list content) (name : string) :
  Forall (λ d, valid_names d = true) l →
  Forall (λ d, valid_names d = true) (filter (λ d, content_name d = name) l).
Proof.
  intros Hl. apply Forall_forall. intros d Hd.
  apply list_elem_of_filter in Hd as [_ Hd]. rewrite Forall_forall in Hl. auto.
Qed.

(** Whatever the namespace form, the URLs are those the document lists. *)
Lemma product_urls_of_encoded (ns : string) (c : content) :
  ns ∈ namespaces → valid_names c = true →
  product_urls_of_root (encode ns c) = content_product_urls c.
Proof.
  intros Hns Hv. unfold product_urls_of_root, content_product_urls.
  assert (Hnss : ∀ ns', ns' ∈ namespaces →
            findall (encode ns c) (ns' +:+ "url")
            = if decide (ns = ns')
              then map (encode ns)
                     (filter (λ d, content_name d = "url") (content_descendants c))
              else [])
    by (intros ns' Hns'; apply findall_encode; assumption).
  pose proof (Forall_filter_valid _ "url" (valid_names_descendants _ Hv)) as Hurls.
  assert (H1 : sitemap_ns ∈ namespaces) by (unfold namespaces; rewrite !elem_of_cons; auto).
  assert (H2 : "" ∈ namespaces) by (unfold namespaces; rewrite !elem_of_cons; auto).
  assert (H3 : legacy_ns ∈ namespaces) by (unfold namespaces; rewrite !elem_of_cons; auto).
  pose proof (Hnss _ H1) as F1. pose proof (Hnss _ H2) as F2. pose proof (Hnss _ H3) as F3.
  unfold namespaces. simpl scan_namespaces. rewrite F1, F2, F3.
  destruct (filter (λ d, content_name d = "url") (content_descendants c))
    as [|u us] eqn:Hf.
  { repeat destruct (decide _); reflexivity. }
  rewrite <- (product_locs_encode ns (u :: us) Hns Hurls).
  unfold namespaces in Hns. rewrite !elem_of_cons, elem_of_nil in Hns.
  destruct Hns as [-> | [-> | [-> | []]]];
    repeat (destruct (decide _) as [?|?]; try discriminate; try congruence);
    reflexivity.
Qed.

Lemma scan_namespaces_cons (root : xml) (namespace : string) (rest : list string) :
  scan_namespaces root (namespace :: rest)
  = match findall root (namespace +:+ "url") with
    | [] => scan_namespaces root rest
    | url_elements => product_locs namespace url_elements
    end.
Proof. reflexivity. Qed.

(** C6: a sitemap document written in any of the three namespace forms
    gives the same list of product URLs, and the namespaces are tried in
    the order standard, none, legacy, the first one with [url] elements
    deciding alone. *)
Theorem sitemap_namespace_forms `{Externals} :
  (∀ c ns1 ns2,
     valid_names c = true → ns1 ∈ namespaces → ns2 ∈ namespaces →
     product_urls_of_root (encode ns1 c) = product_urls_of_root (encode ns2 c))
  ∧ (∀ c ns1 ns2 url1 url2 body1 body2,
       valid_names c = true → ns1 ∈ namespaces → ns2 ∈ namespaces →
       session_get url1 = Ok body1 → ET_fromstring body1 = Ok (encode ns1 c) →
       session_get url2 = Ok body2 → ET_fromstring body2 = Ok (encode ns2 c) →
       get_product_urls_from_sitemap url1 = get_product_urls_from_sitemap url2)
  ∧ (∀ root,
       findall root (sitemap_ns +:+ "url") ≠ [] →
       product_urls_of_root root
       = product_locs sitemap_ns (findall root (sitemap_ns +:+ "url")))
  ∧ (∀ root,
       findall root (sitemap_ns +:+ "url") = [] → findall root ("" +:+ "url") ≠ [] →
       product_urls_of_root root = product_locs "" (findall root ("" +:+ "url")))
  ∧ (∀ root,
       findall root (sitemap_ns +:+ "url") = [] → findall root ("" +:+ "url") = [] →
       product_urls_of_root root
       = product_locs legacy_ns (findall root (legacy_ns +:+ "url"))).
Proof.
  split; [|split; [|split; [|split]]].
  - intros c ns1 ns2 Hv H1 H2.
    rewrite (product_urls_of_encoded ns1 c H1 Hv), (product_urls_of_encoded ns2 c H2 Hv).
    reflexivity.
  - intros c ns1 ns2 url1 url2 body1 body2 Hv H1 H2 Hg1 Hp1 Hg2 Hp2.
    unfold get_product_urls_from_sitemap. rewrite Hg1, Hg2. simpl.
    rewrite Hp1, Hp2. simpl.
    rewrite (product_urls_of_encoded ns1 c H1 Hv), (product_urls_of_encoded ns2 c H2 Hv).
    reflexivity.
  - intros root Hne. unfold product_urls_of_root, namespaces.
    rewrite scan_namespaces_cons.
    destruct (findall root (sitemap_ns +:+ "url")); [congruence|reflexivity].
  - intros root He Hne. unfold product_urls_of_root, namespaces.
    rewrite !scan_namespaces_cons, He.
    destruct (findall root ("" +:+ "url")); [congruence|reflexivity].
  - intros root He1 He2. unfold product_urls_of_root, namespaces.
    rewrite !scan_namespaces_cons, He1, He2.
    destruct (findall root (legacy_ns +:+ "url")); reflexivity.
Qed.

Lemma sitemap_namespace_forms_witness :
  valid_names sample_sitemap = true
  ∧ product_urls_of_root (encode sitemap_ns sample_sitemap)
    = product_urls_of_root (encode legacy_ns sample_sitemap)
  ∧ product_urls_of_root (encode "" sample_sitemap)
    = ["https://shop.example/products/widget"].
Proof.
  split; [reflexivity|]. split; [|vm_compute; reflexivity].
  apply (proj1 (@sitemap_namespace_forms offline) sample_sitemap sitemap_ns legacy_ns);
    [reflexivity|unfold namespaces; rewrite !elem_of_cons; auto..].
Defined.

(** ** Deduplication before submission *)

Lemma filter_absent (l : list string) (x : string) :
  x ∉ l → filter (λ y, y = x) l = [].
Proof.
  induction l as [|y l IH]; intros Hx; [reflexivity|].
  apply not_elem_of_cons in Hx as [Hne Hx].
  rewrite filter_cons. destruct (decide (y = x)); [congruence|exact (IH Hx)].
Qed.

Lemma NoDup_count_one (l : list string) (x : string) :
  NoDup l → x ∈ l → length (filter (λ y, y = x) l) = 1.
Proof.
  induction 1 as [|y l Hy Hnd IH]; intros Hx; [inversion Hx|].
  rewrite filter_cons. apply elem_of_cons in Hx as [->|Hx].
  - destruct (decide (y = y)); [|congruence].
    rewrite (filter_absent _ _ Hy). reflexivity.
  - destruct (decide (y = x)) as [->|_]; [contradiction|]. exact (IH Hx).
Qed.

(** C7: whatever duplicates the list of product URLs holds, the list of
    URLs submitted to the worker pool holds every URL of the input and no
    other, each exactly once. *)
Theorem each_distinct_url_submitted_once (all_product_urls : list string) :
  NoDup (submitted_urls all_product_urls)
  ∧ (∀ url, url ∈ submitted_urls all_product_urls ↔ url ∈ all_product_urls)
  ∧ (∀ url, url ∈ all_product_urls →
            length (filter (λ u, u = url) (submitted_urls all_product_urls)) = 1)
  ∧ (∀ url, url ∉ all_product_urls →
            length (filter (λ u, u = url) (submitted_urls all_product_urls)) = 0).
Proof.
  unfold submitted_urls, unique_urls. rewrite list_fmap_id.
  assert (Hin : ∀ url, url ∈ elements (list_to_set all_product_urls : gset string)
                       ↔ url ∈ all_product_urls).
  { intros url. rewrite elem_of_elements, elem_of_list_to_set. reflexivity. }
  split; [apply NoDup_elements|]. split; [exact Hin|]. split.
  - intros url Hurl. apply NoDup_count_one; [apply NoDup_elements|].
    apply Hin. exact Hurl.
  - intros url Hurl. rewrite filter_absent; [reflexivity|].
    intros Hsub. apply Hurl, Hin. exact Hsub.
Qed.

Lemma each_distinct_url_submitted_once_witness :
  let urls := ["https://shop.example/products/a"; "https://shop.example/products/b";
               "https://shop.example/products/a"] in
  "https://shop.example/products/a" ∈ urls
  ∧ length (filter (λ u, u = "https://shop.example/products/a") (submitted_urls urls)) = 1.
Proof.
  intros urls.
  assert (Hin : "https://shop.example/products/a" ∈ urls) by (left).
  split; [exact Hin|].
  destruct (each_distinct_url_submitted_once urls) as (_ & _ & Honce & _).
  exact (Honce _ Hin).
Defined.

(** * Further properties of the code *)

(** ** The price parser never yields a negative price *)

Lemma binary_round_aux_sign (sx : bool) (mx ex : Z) (lx : location) :
  match binary_round_aux prec64 emax64 sx mx ex lx with
  | S754_zero s | S754_infinity s | S754_finite s _ _ => s = sx
  | S754_nan => True
  end.
Proof.
  unfold binary_round_aux.
  destruct (shr_fexp prec64 emax64 mx ex lx) as [mrs' e'].
  destruct (shr_fexp prec64 emax64 _ e' loc_Exact) as [mrs'' e''].
  destruct (shr_m mrs''); [reflexivity| |exact I].
  destruct (Z.leb e'' (emax64 - prec64)); reflexivity.
Qed.

Lemma float_of_ratio_nonneg (n d : Z) : nonneg_float (float_of_ratio n d).
Proof.
  unfold float_of_ratio. destruct n; [reflexivity| |exact I].
  destruct (SFdiv_core_binary prec64 emax64 (Z.pos p) 0 d 0) as [[m e] l].
  apply (binary_round_aux_sign false).
Qed.

Lemma float_times_100_nonneg (x : spec_float) :
  nonneg_float x → nonneg_float (float_mul x (float_of_Z 100)).
Proof.
  assert (H100 : float_of_Z 100 = S754_finite false 7036874417766400 (-46))
    by (vm_compute; reflexivity).
  rewrite H100. unfold float_mul.
  destruct x as [s|s| |s m e]; simpl; intros Hx; try exact I;
    try (rewrite Hx; reflexivity).
  rewrite Hx. apply (binary_round_aux_sign false).
Qed.

Lemma int_of_float_nonneg (x : spec_float) (z : Z) :
  nonneg_float x → int_of_float x = Ok z → (0 ≤ z)%Z.
Proof.
  destruct x as [s|s| |s m e]; simpl; try discriminate.
  - intros _ [= <-]. reflexivity.
  - intros -> [= <-]. destruct e as [|p|p].
    + apply Z.shiftl_nonneg. discriminate.
    + apply Z.shiftl_nonneg. discriminate.
    + apply Z.shiftr_nonneg. discriminate.
Qed.

Lemma float_of_string_nonneg (s : string) (x : spec_float) :
  float_of_string s = Ok x → nonneg_float x.
Proof.
  unfold float_of_string. destruct (split_point s) as [ip fo].
  destruct (_ && _); [|discriminate]. intros [= <-]. apply float_of_ratio_nonneg.
Qed.

Lemma cents_of_number_nonneg (group : string) (cents : Z) :
  cents_of_number group = Ok cents → (0 ≤ cents)%Z.
Proof.
  unfold cents_of_number. intros Hc.
  apply bind_ok_inv in Hc as (price & Hprice & Hint).
  apply (int_of_float_nonneg _ _ (float_times_100_nonneg _
           (float_of_string_nonneg _ _ Hprice)) Hint).
Qed.

Lemma scan_price_nonneg (page : soup) (selectors : list string) (cents : Z) :
  scan_price page selectors = Ok (Some cents) → (0 ≤ cents)%Z.
Proof.
  induction selectors as [|selector rest IH]; simpl; [discriminate|].
  destruct (select_one page selector) as [price_elem|]; [|exact IH].
  intros Hs. apply bind_ok_inv in Hs as (found & Hfound & Hs).
  destruct found as [c|]; [|exact (IH Hs)].
  injection Hs as ->. unfold parse_price_text in Hfound.
  destruct (search_price _) as [group|]; [|discriminate].
  apply fmap_ok_inv in Hfound as (c & Hc & [= ->]).
  exact (cents_of_number_nonneg _ _ Hc).
Qed.

(** X7: Whatever the price text, the price the structural parser reads from
    it is not negative, and so is the price the price loop of
    [_fallback_extraction] and [_apply_fallback_fixes] settles on. *)
Theorem parsed_price_is_nonnegative :
  (∀ price_text cents,
     parse_price_text price_text = Ok (Some cents) → (0 ≤ cents)%Z)
  ∧ (∀ page cents,
       scan_price page price_selectors = Ok (Some cents) → (0 ≤ cents)%Z).
Proof.
  split; [|intros page cents; apply scan_price_nonneg].
  intros price_text cents. unfold parse_price_text.
  destruct (search_price price_text) as [group|]; [|discriminate].
  intros Hf. apply fmap_ok_inv in Hf as (c & Hc & [= ->]).
  exact (cents_of_number_nonneg _ _ Hc).
Qed.

Lemma parsed_price_is_nonnegative_witness :
  parse_price_text "Sale: $19.99 (was $25)" = Ok (Some 1998%Z) ∧ (0 ≤ 1998)%Z.
Proof.
  assert (Hp : parse_price_text "Sale: $19.99 (was $25)" = Ok (Some 1998%Z))
    by (vm_compute; reflexivity).
  split; [exact Hp|].
  exact (proj1 parsed_price_is_nonnegative _ _ Hp).
Defined.

(** ** Image URLs *)

Lemma contains_app_l (needle p s : string) :
  contains needle s = true → contains needle (p +:+ s) = true.
Proof.
  intros Hs. induction p as [|c p IH]; [exact Hs|].
  rewrite append_cons.
  change (contains needle (String c (p +:+ s)))
    with (startswith needle (String c (p +:+ s)) || contains needle (p +:+ s)).
  rewrite IH. apply orb_true_r.
Qed.


Lemma absolute_src_http (src : string) : startswith "http" (absolute_src src) = true.
Proof.
  unfold absolute_src. destruct (startswith "http" src) eqn:Hh; [exact Hh|].
  destruct (startswith "//" src); reflexivity.
Qed.

Lemma absolute_src_contains (needle src : string) :
  contains needle src = true → contains needle (absolute_src src) = true.
Proof.
  intros Hc. unfold absolute_src. destruct (startswith "http" src); [exact Hc|].
  destruct (startswith "//" src); apply contains_app_l; exact Hc.
Qed.

Lemma cdn_images_spec (img_elements : list tag) (src : string) :
  src ∈ cdn_images img_elements →
  startswith "http" src = true ∧ contains "cdn.shopify.com" src = true.
Proof.
  unfold cdn_images. rewrite list_elem_of_omap. intros (img & _ & Himg).
  destruct (image_src img) as [raw|]; [|discriminate].
  destruct (contains "cdn.shopify.com" raw) eqn:Hc; [|discriminate].
  injection Himg as <-.
  split; [apply absolute_src_http|exact (absolute_src_contains _ _ Hc)].
Qed.

Lemma scan_images_from_one_selector (page : soup) (selectors : list string) :
  scan_images page selectors [] = []
  ∨ ∃ selector, selector ∈ selectors
                ∧ scan_images page selectors [] = cdn_images (select page selector).
Proof.
  induction selectors as [|selector rest IH]; [left; reflexivity|].
  simpl. destruct (cdn_images (select page selector)) as [|src srcs] eqn:Hc.
  - destruct IH as [IH|(sel & Hsel & IH)]; [left; exact IH|].
    right. exists sel. split; [right; exact Hsel|exact IH].
  - right. exists selector. split; [left|]. symmetry. exact Hc.
Qed.



(** ** The JSON object searched in the answer *)

Lemma upto_last_brace_none (s : string) :
  lacks "}" s = true → upto_last_brace s = None.
Proof.
  induction s as [|c s IH]; [reflexivity|]. simpl. intros Hl.
  apply andb_true_iff in Hl as [Hc Hl]. rewrite (IH Hl).
  apply negb_true_iff in Hc. rewrite Hc. reflexivity.
Qed.

Lemma upto_last_brace_spec (b c : string) :
  lacks "}" c = true →
  upto_last_brace (b +:+ String "}" c) = Some (b +:+ String "}" EmptyString).
Proof.
  intros Hc. induction b as [|x b IH].
  - rewrite !append_nil_l. simpl. rewrite (upto_last_brace_none _ Hc). reflexivity.
  - rewrite !append_cons. simpl. rewrite IH. reflexivity.
Qed.

Lemma search_json_object_none (s : string) :
  lacks "}" s = true → search_json_object s = None.
Proof.
  induction s as [|c s IH]; [reflexivity|]. simpl. intros Hl.
  apply andb_true_iff in Hl as [_ Hl]. rewrite (upto_last_brace_none _ Hl), (IH Hl).
  destruct (Ascii.eqb c "{"); reflexivity.
Qed.

(** X3: The search for a JSON object in the answer of the completion service
    is greedy: it returns the text from the first opening brace to the last
    closing brace, whatever lies between (further braces, line breaks), and
    nothing when no closing brace follows an opening one. *)
Theorem json_search_spans_first_to_last_brace :
  (∀ a b c,
     lacks "{" a = true → lacks "}" c = true →
     search_json_object (a +:+ "{" +:+ b +:+ "}" +:+ c) = Some ("{" +:+ b +:+ "}"))
  ∧ (∀ a c,
       lacks "{" a = true → lacks "}" c = true →
       search_json_object (a +:+ c) = None).
Proof.
  split.
  - intros a b c Ha Hc.
    change (a +:+ "{" +:+ b +:+ "}" +:+ c) with (a +:+ String "{" (b +:+ String "}" c)).
    change ("{" +:+ b +:+ "}") with (String "{" (b +:+ String "}" EmptyString)).
    induction a as [|x a IH].
    + rewrite append_nil_l. simpl. rewrite (upto_last_brace_spec b c Hc). reflexivity.
    + rewrite append_cons. simpl in Ha. apply andb_true_iff in Ha as [Hx Ha].
      apply negb_true_iff in Hx. simpl. rewrite Hx. exact (IH Ha).
  - intros a c Ha Hc. induction a as [|x a IH].
    + rewrite append_nil_l. exact (search_json_object_none _ Hc).
    + rewrite append_cons. simpl in Ha. apply andb_true_iff in Ha as [Hx Ha].
      apply negb_true_iff in Hx. simpl. rewrite Hx. exact (IH Ha).
Qed.

Lemma json_search_spans_first_to_last_brace_witness :
  lacks "{" "Here you go: " = true ∧ lacks "}" " Bye." = true
  ∧ search_json_object ("Here you go: " +:+ "{" +:+ "a} and {b" +:+ "}" +:+ " Bye.")
    = Some ("{" +:+ "a} and {b" +:+ "}").
Proof.
  split; [reflexivity|]. split; [reflexivity|].
  exact (proj1 json_search_spans_first_to_last_brace "Here you go: " "a} and {b" " Bye."
           eq_refl eq_refl).
Defined.

(** ** The product slug of a URL and the identifiers of a fallback record *)

Lemma strip_prefix_spec (p s r : string) : strip_prefix p s = Some r → s = p +:+ r.
Proof.
  revert s. induction p as [|a p IH]; intros s; simpl.
  - intros [= ->]. reflexivity.
  - destruct s as [|b s]; [discriminate|].
    destruct (Ascii.eqb_spec a b) as [<-|]; [|discriminate].
    intros Hs. rewrite append_cons, (IH _ Hs). reflexivity.
Qed.

Lemma span_slug_lacks (s : string) :
  lacks "/" (span_slug s) = true ∧ lacks "?" (span_slug s) = true.
Proof.
  induction s as [|c s [IH1 IH2]]; [split; reflexivity|]. simpl.
  destruct (Ascii.eqb c "/") eqn:H1; [split; reflexivity|].
  destruct (Ascii.eqb c "?") eqn:H2; [split; reflexivity|].
  simpl. rewrite H1, H2, IH1, IH2. split; reflexivity.
Qed.

Lemma span_slug_prefix (s : string) : startswith (span_slug s) s = true.
Proof.
  induction s as [|c s IH]; [reflexivity|]. simpl.
  destruct (_ || _); [reflexivity|]. rewrite startswith_cons. exact IH.
Qed.

Lemma startswith_app_same (p g r : string) :
  startswith g r = true → startswith (p +:+ g) (p +:+ r) = true.
Proof.
  intros Hg. induction p as [|a p IH]; [exact Hg|].
  rewrite !append_cons, startswith_cons. exact IH.
Qed.

Lemma contains_of_startswith (needle s : string) :
  startswith needle s = true → contains needle s = true.
Proof. intros Hs. destruct s; simpl; rewrite Hs; reflexivity. Qed.

Lemma contains_cons (needle : string) (c : ascii) (s : string) :
  contains needle s = true → contains needle (String c s) = true.
Proof.
  intros Hs.
  change (contains needle (String c s))
    with (startswith needle (String c s) || contains needle s).
  rewrite Hs. apply orb_true_r.
Qed.

Lemma search_product_slug_unfold (url : string) :
  search_product_slug url
  = match (match strip_prefix "/products/" url with
           | Some r => match span_slug r with EmptyString => None | g => Some g end
           | None => None
           end) with
    | Some g => Some g
    | None => match url with
              | EmptyString => None
              | String _ url' => search_product_slug url'
              end
    end.
Proof. destruct url; reflexivity. Qed.

Lemma search_product_slug_spec (url slug : string) :
  search_product_slug url = Some slug →
  slug ≠ EmptyString ∧ lacks "/" slug = true ∧ lacks "?" slug = true
  ∧ contains ("/products/" +:+ slug) url = true.
Proof.
  induction url as [|c url IH]; rewrite search_product_slug_unfold.
  - simpl. discriminate.
  - destruct (strip_prefix "/products/" (String c url)) as [r|] eqn:Hr.
    + destruct (span_slug r) as [|g0 g] eqn:Hg.
      * intros Hs. destruct (IH Hs) as (H1 & H2 & H3 & H4).
        repeat split; try assumption. exact (contains_cons _ _ _ H4).
      * intros [= <-]. split; [discriminate|]. rewrite <- Hg.
        split; [apply span_slug_lacks|]. split; [apply span_slug_lacks|].
        apply contains_of_startswith. rewrite (strip_prefix_spec _ _ _ Hr).
        apply startswith_app_same, span_slug_prefix.
    + intros Hs. destruct (IH Hs) as (H1 & H2 & H3 & H4).
      repeat split; try assumption. exact (contains_cons _ _ _ H4).
Qed.

(** X9: In a fallback record the [id] is the product slug of the URL: a
    non-empty text free of "/" and "?" that follows "/products/" in the URL,
    and the [gid] is "gid://shopify/Product/" followed by that [id]; when
    the URL has no such slug, [id] and [gid] are both null. *)
Theorem fallback_id_is_url_slug `{Externals} (html_content url : string)
  (r : gmap string value) :
  _fallback_extraction html_content url = Ok (Some r) →
  (∃ slug, r !! "id" = Some (VStr slug)
           ∧ r !! "gid" = Some (VStr ("gid://shopify/Product/" +:+ slug))
           ∧ slug ≠ EmptyString ∧ lacks "/" slug = true ∧ lacks "?" slug = true
           ∧ contains ("/products/" +:+ slug) url = true)
  ∨ (search_product_slug url = None
     ∧ r !! "id" = Some VNone ∧ r !! "gid" = Some VNone).
Proof.
  intros Hf. apply fallback_extraction_inv, fallback_scan_inv in Hf
    as (page & price & _ & _ & ->).
  destruct (search_product_slug url) as [slug|] eqn:Hslug.
  - left. exists slug.
    split; [rewrite lookup_insert_ne, lookup_insert_ne, lookup_insert_eq
              by discriminate; reflexivity|].
    split; [rewrite lookup_insert_ne, lookup_insert_eq by discriminate; reflexivity|].
    exact (search_product_slug_spec _ _ Hslug).
  - right. split; [reflexivity|].
    split; rewrite lookup_insert_ne, lookup_set_found_ne, lookup_insert_ne,
             !lookup_set_found_ne by discriminate; reflexivity.
Qed.

Lemma fallback_id_is_url_slug_witness :
  let E := scripted (Ok None) (Ok VNone) blank_page in
  let url := "https://shop.example/products/blue-mug?variant=2" in
  ∃ r, @_fallback_extraction E "<html>" url = Ok (Some r)
       ∧ r !! "id" = Some (VStr "blue-mug")
       ∧ r !! "gid" = Some (VStr "gid://shopify/Product/blue-mug").
Proof.
  intros E url.
  exists (<["gid" := VStr "gid://shopify/Product/blue-mug"]>
            (<["id" := VStr "blue-mug"]> (initial_record url))).
  assert (Hf : @_fallback_extraction E "<html>" url
               = Ok (Some (<["gid" := VStr "gid://shopify/Product/blue-mug"]>
                             (<["id" := VStr "blue-mug"]> (initial_record url)))))
    by reflexivity.
  split; [exact Hf|].
  destruct (@fallback_id_is_url_slug E _ _ _ Hf)
    as [(slug & Hid & Hgid & _)|(Hnone & _)]; [|vm_compute in Hnone; discriminate].
  split; reflexivity.
Defined.

(** ** The decision table of [_map_availability] *)



(** ** The output list: all or nothing, in order *)

Lemma mapM_raise {A B} (f : A → result B) (l : list A) (i : nat) (x : A) (e : exn) :
  l !! i = Some x → f x = Raise e → ∃ e', mapM f l = Raise e'.
Proof.
  revert i. induction l as [|a l IH]; intros i Hi Hx; [destruct i; discriminate|].
  simpl. destruct i as [|i]; simpl in Hi.
  - injection Hi as ->. rewrite Hx. eauto.
  - destruct (f a) as [b|e0]; [|eauto]. simpl.
    destruct (IH _ Hi Hx) as (e' & ->). eauto.
Qed.

(** X13: [generate_schema_org_output] writes one normalized record per product,
    in the order of the products; a single product on which the
    normalization raises makes the whole call raise, so that no output at
    all is produced; and when every product normalizes the call succeeds. *)
Theorem output_is_all_or_nothing `{Externals} (products : list (gmap string value)) :
  (∀ out, generate_schema_org_output products = Ok out →
          length out = length products
          ∧ ∀ i product, products !! i = Some product →
                         ∃ r, out !! i = Some r ∧ normalize_product product = Ok r)
  ∧ (∀ i product e,
       products !! i = Some product → normalize_product product = Raise e →
       ∃ e', generate_schema_org_output products = Raise e')
  ∧ (Forall (λ product, ∃ r, normalize_product product = Ok r) products →
     ∃ out, generate_schema_org_output products = Ok out).
Proof.
  unfold generate_schema_org_output. split; [|split].
  - intros out Hout. split.
    + apply mapM_ok_Forall2 in Hout. symmetry. exact (Forall2_length _ _ _ Hout).
    + intros i product Hi. exact (mapM_ok_lookup _ _ _ Hout _ _ Hi).
  - intros i product e Hi He. exact (mapM_raise _ _ _ _ _ Hi He).
  - intros Hall. destruct (mapM_each normalize_product (λ _, True) products)
      as (out & Hout & _); [|eauto].
    eapply Forall_impl; [exact Hall|]. intros p (r & Hr). eauto.
Qed.

Lemma output_is_all_or_nothing_witness :
  let good : gmap string value := <["price" := VInt 15000]> ∅ in
  let bad : gmap string value := <["price" := VStr "N/A"]> ∅ in
  [good; bad] !! 1 = Some bad
  ∧ @normalize_product offline bad = Raise ValueError
  ∧ ∃ e', @generate_schema_org_output offline [good; bad] = Raise e'.
Proof.
  intros good bad.
  assert (Hbad : @normalize_product offline bad = Raise ValueError) by reflexivity.
  split; [reflexivity|]. split; [exact Hbad|].
  destruct (@output_is_all_or_nothing offline [good; bad]) as (_ & Hraise & _).
  exact (Hraise 1 bad ValueError eq_refl Hbad).
Defined.

(** ** The shape of a normalized record *)

Lemma product_dict_keys
  (product_id name description brand category tags url image_urls
     price_cents availability variants : value) (k : string) :
  is_Some (product_dict product_id name description brand category tags url
             image_urls price_cents availability variants !! k)
  ↔ k ∈ product_keys.
Proof.
  unfold product_dict, product_keys.
  rewrite !lookup_insert_is_Some', lookup_empty, !elem_of_cons, elem_of_nil.
  rewrite <- not_eq_None_Some.
  intuition congruence.
Qed.

Lemma variant_dict_keys
  (variant_id name sku price_cents availability image_url options : value) (k : string) :
  is_Some (variant_dict variant_id name sku price_cents availability image_url
             options !! k)
  ↔ k ∈ variant_keys.
Proof.
  unfold variant_dict, variant_keys.
  rewrite !lookup_insert_is_Some', lookup_empty, !elem_of_cons, elem_of_nil.
  rewrite <- not_eq_None_Some.
  intuition congruence.
Qed.

(** X14: Whenever the normalizer succeeds on a product, the record it writes
    has exactly the eleven keys of the published schema, a string
    [product_id], an integer [price_cents], lists under [tags] and
    [image_urls], one of the three schema.org URIs under [availability],
    and under [variants] a list of dictionaries that have exactly the seven
    variant keys, each with one of the three URIs as [availability]. *)
Theorem normalized_record_has_schema_shape `{Externals}
  (product r : gmap string value) :
  normalize_product product = Ok r →
  (∀ k, is_Some (r !! k) ↔ k ∈ product_keys)
  ∧ (∃ product_id, r !! "product_id" = Some (VStr product_id))
  ∧ (∃ price_cents, r !! "price_cents" = Some (VInt price_cents))
  ∧ (∃ tags, r !! "tags" = Some (VList tags))
  ∧ (∃ image_urls, r !! "image_urls" = Some (VList image_urls))
  ∧ (∃ availability, r !! "availability" = Some (VStr availability)
                     ∧ is_uri availability)
  ∧ (∃ variants,
       r !! "variants" = Some (VList variants)
       ∧ Forall (λ v, ∃ d availability,
                   v = VDict d
                   ∧ (∀ k, is_Some (d !! k) ↔ k ∈ variant_keys)
                   ∧ d !! "availability" = Some (VStr availability)
                   ∧ is_uri availability) variants).
Proof.
  intros Hn.
  apply normalize_product_inv in Hn as (pc & av & items & vars & _ & Hav & _ & Hm & ->).
  split; [intros k; apply product_dict_keys|].
  split; [eexists; apply product_dict_lookups|].
  split; [eexists; apply product_dict_lookups|].
  split.
  { destruct (is_list (get product "tags")) eqn:Hl;
      [|eexists; apply product_dict_lookups].
    unfold get in Hl. unfold get_or.
    destruct (product !! "tags") as [[| | | | |tags|]|]; try discriminate Hl.
    exists tags. apply product_dict_lookups. }
  split.
  { destruct (is_list (get product "images")) eqn:Hl;
      [|eexists; apply product_dict_lookups].
    unfold get in Hl. unfold get_or.
    destruct (product !! "images") as [[| | | | |images|]|]; try discriminate Hl.
    exists images. apply product_dict_lookups. }
  split.
  { exists av. split; [apply product_dict_lookups|].
    exact (map_availability_ok_uri _ _ Hav). }
  exists vars. split; [apply product_dict_lookups|].
  eapply mapM_ok_Forall; [|exact Hm]. intros x y Hxy.
  apply normalize_variant_inv in Hxy as (v & pcv & avv & _ & _ & Havv & ->).
  eexists _, avv. split; [reflexivity|].
  split; [intros k; apply variant_dict_keys|].
  split; [apply variant_dict_lookups|exact (map_availability_ok_uri _ _ Havv)].
Qed.

Lemma normalized_record_has_schema_shape_witness :
  @normalize_product offline sample_record = Ok sample_normalized
  ∧ (is_Some (sample_normalized !! "brand") ↔ "brand" ∈ product_keys)
  ∧ ∃ availability, sample_normalized !! "availability" = Some (VStr availability)
                    ∧ is_uri availability.
Proof.
  assert (Hn : @normalize_product offline sample_record = Ok sample_normalized)
    by reflexivity.
  destruct (@normalized_record_has_schema_shape offline _ _ Hn)
    as (Hkeys & _ & _ & _ & _ & Hav & _).
  split; [exact Hn|]. split; [exact (Hkeys "brand")|exact Hav].
Defined.

(** ** The identifier scan of [_apply_fallback_fixes] *)

Section IdScan.
Context `{Externals}.

Lemma scan_elements_id_found (elements : list tag) (product_id : option string)
  (found : string) :
  scan_elements_id elements None = Some found →
  scan_elements_id elements product_id = Some found.
Proof.
  induction elements as [|element rest IH]; simpl; [discriminate|].
  destruct (attr element "data-product-id"); [auto|].
  destruct (tag_string element) as [text|]; [|exact IH].
  destruct (contains product_type_marker text); [|exact IH].
  destruct (json_ld_id text); [auto|exact IH].
Qed.

Lemma scan_elements_id_nothing (elements : list tag) (product_id : option string) :
  scan_elements_id elements None = None →
  scan_elements_id elements product_id = product_id.
Proof.
  induction elements as [|element rest IH]; simpl; [reflexivity|].
  destruct (attr element "data-product-id"); [discriminate|].
  destruct (tag_string element) as [text|]; [|exact IH].
  destruct (contains product_type_marker text); [|exact IH].
  destruct (json_ld_id text); [discriminate|exact IH].
Qed.

Lemma scan_product_id_snoc (page : soup) (selectors : list string) (selector : string)
  (product_id : option string) :
  scan_product_id page (selectors ++ [selector])%list product_id
  = scan_elements_id (select page selector) (scan_product_id page selectors product_id).
Proof.
  revert product_id. induction selectors as [|s rest IH]; intros product_id;
    [reflexivity|].
  simpl. apply IH.
Qed.

(** X6: The identifier scan visits every selector, because its [break] only
    leaves the loop over the elements: the last selector that yields an
    identifier decides, so an identifier from the JSON-LD script (the last
    selector) replaces one found in a [data-product-id] attribute, and a
    selector that yields nothing leaves the earlier result in place. *)
Theorem last_id_selector_decides (page : soup) :
  (∀ selectors selector product_id found,
     scan_elements_id (select page selector) None = Some found →
     scan_product_id page (selectors ++ [selector])%list product_id = Some found)
  ∧ (∀ selectors selector product_id,
       scan_elements_id (select page selector) None = None →
       scan_product_id page (selectors ++ [selector])%list product_id
       = scan_product_id page selectors product_id)
  ∧ (∀ found,
       scan_elements_id
         (select page ("script[type=" +:+ double_quote +:+ "application/ld+json"
                       +:+ double_quote +:+ "]")) None = Some found →
       scan_product_id page id_selectors None = Some found).
Proof.
  split; [|split].
  - intros selectors selector product_id found Hf.
    rewrite scan_product_id_snoc. exact (scan_elements_id_found _ _ _ Hf).
  - intros selectors selector product_id Hn.
    rewrite scan_product_id_snoc. exact (scan_elements_id_nothing _ _ Hn).
  - intros found Hf.
    change id_selectors
      with (["[data-product-id]"; "[data-product-id]";
             ".product-single__meta [data-product-id]"]
            ++ ["script[type=" +:+ double_quote +:+ "application/ld+json"
                +:+ double_quote +:+ "]"])%list.
    rewrite scan_product_id_snoc. exact (scan_elements_id_found _ _ _ Hf).
Qed.

End IdScan.

Lemma last_id_selector_decides_witness :
  let ld_text := product_type_marker in
  let script := {| tag_attrs := ∅; tag_string := Some ld_text; tag_text := ld_text |} in
  let div := {| tag_attrs := {["data-product-id" := "111"]};
                tag_string := None; tag_text := "" |} in
  let page := {| select := λ selector,
                   if String.eqb selector "[data-product-id]" then [div]
                   else if String.eqb selector (nth 3 id_selectors "") then [script]
                   else [] |} in
  let E := scripted (Ok None)
             (Ok (VDict (<["@id" := VStr "https://shop.example/products/222"]>
                           (<["@type" := VStr "Product"]> ∅)))) page in
  @scan_elements_id E (select page "[data-product-id]") None = Some "111"
  ∧ @scan_product_id E page id_selectors None = Some "222".
Proof.
  intros ld_text script div page E.
  split; [reflexivity|].
  apply (proj2 (proj2 (@last_id_selector_decides E page))).
  reflexivity.
Defined.

(** ** What every extracted record carries *)

Lemma initial_record_fields (url : string) :
  initial_record url !! "url" = Some (VStr url)
  ∧ initial_record url !! "vendor" = Some (VStr default_vendor)
  ∧ initial_record url !! "name" = Some (VStr "")
  ∧ initial_record url !! "description" = Some (VStr "")
  ∧ initial_record url !! "availability" = Some (VStr "in stock")
  ∧ initial_record url !! "tags" = Some (VList [])
  ∧ initial_record url !! "type" = Some VNone.
Proof. vm_compute. repeat split. Qed.

Lemma py_or_str (s : string) : py_or (VStr s) (VStr "") = VStr s.
Proof.
  unfold py_or. simpl. destruct (String.eqb_spec s EmptyString) as [->|_]; reflexivity.
Qed.

Section ExtractedRecords.
Context `{Externals}.

Lemma fallback_record_fields (html_content url : string) (r : gmap string value) :
  _fallback_extraction html_content url = Ok (Some r) →
  ∃ page found,
    BeautifulSoup html_content = Ok page
    ∧ scan_price page price_selectors = Ok found
    ∧ r !! "url" = Some (VStr url)
    ∧ r !! "vendor" = Some (VStr default_vendor)
    ∧ r !! "name" = Some (VStr (default EmptyString (first_text page name_selectors)))
    ∧ r !! "description"
      = Some (VStr (default EmptyString (first_text page desc_selectors)))
    ∧ r !! "price" = Some (VInt (default 0%Z found))
    ∧ r !! "images" = Some (VList (VStr <$> scan_images page img_selectors []))
    ∧ r !! "availability" = Some (VStr "in stock")
    ∧ r !! "tags" = Some (VList [])
    ∧ r !! "type" = Some VNone
    ∧ r !! "variants" = Some (VList [])
    ∧ r !! "id" = Some (from_option VStr VNone (search_product_slug url)).
Proof.
  intros Hf. pose proof Hf as Hf'.
  apply fallback_extraction_inv, fallback_scan_inv in Hf
    as (page & found & Hpage & Hfound & Hr).
  exists page, found. split; [exact Hpage|]. split; [exact Hfound|].
  destruct (initial_record_fields url) as (Iurl & Ivendor & Iname & Idesc & Iav & Itags & Itype).
  set (inner := set_found "description" (VStr <$> first_text page desc_selectors)
                  (<["images" := VList (VStr <$> scan_images page img_selectors [])]>
                  (set_found "price" (VInt <$> found)
                  (set_found "name" (VStr <$> first_text page name_selectors)
                     (initial_record url))))) in Hr.
  assert (Hother : ∀ k, k ≠ "variants" → k ≠ "id" → k ≠ "gid" → r !! k = inner !! k).
  { intros k H1 H2 H3. rewrite Hr, lookup_insert_ne by congruence.
    destruct (search_product_slug url); [|reflexivity].
    rewrite !lookup_insert_ne by congruence. reflexivity. }
  assert (Hplain : ∀ k, k ≠ "description" → k ≠ "images" → k ≠ "price" → k ≠ "name" →
                        inner !! k = initial_record url !! k).
  { intros k H1 H2 H3 H4. unfold inner.
    rewrite lookup_set_found_ne, lookup_insert_ne, !lookup_set_found_ne by congruence.
    reflexivity. }
  split; [rewrite Hother, Hplain by discriminate; exact Iurl|].
  split; [rewrite Hother, Hplain by discriminate; exact Ivendor|].
  split.
  { rewrite Hother by discriminate. unfold inner.
    rewrite lookup_set_found_ne, lookup_insert_ne, lookup_set_found_ne,
      lookup_set_found_eq by discriminate.
    destruct (first_text page name_selectors); [reflexivity|exact Iname]. }
  split.
  { rewrite Hother by discriminate. unfold inner. rewrite lookup_set_found_eq.
    destruct (first_text page desc_selectors); [reflexivity|].
    rewrite lookup_insert_ne, !lookup_set_found_ne by discriminate. exact Idesc. }
  split; [exact (fallback_price _ _ _ _ _ Hpage Hfound Hf')|].
  split.
  { rewrite Hother by discriminate. unfold inner.
    rewrite lookup_set_found_ne, lookup_insert_eq by discriminate. reflexivity. }
  split; [rewrite Hother, Hplain by discriminate; exact Iav|].
  split; [rewrite Hother, Hplain by discriminate; exact Itags|].
  split; [rewrite Hother, Hplain by discriminate; exact Itype|].
  split; [rewrite Hr, lookup_insert_eq; reflexivity|].
  rewrite Hr, lookup_insert_ne by discriminate.
  destruct (search_product_slug url) as [slug|].
  - rewrite lookup_insert_ne, lookup_insert_eq by discriminate. reflexivity.
  - unfold inner.
    rewrite lookup_set_found_ne, lookup_insert_ne, !lookup_set_found_ne by discriminate.
    apply initial_record_id.
Qed.

(** X10: A record produced by [_fallback_extraction] always passes the
    normalizer: the normalized record has the price found on the page (0
    when none), never negative, the availability InStock, the default
    vendor as brand, the page URL, no tags, no variants, and as product_id
    the product slug of the URL or, without one, the text "None". *)
Theorem fallback_record_normalizes (html_content url : string)
  (r : gmap string value) :
  _fallback_extraction html_content url = Ok (Some r) →
  ∃ n cents,
    normalize_product r = Ok n
    ∧ n !! "price_cents" = Some (VInt cents) ∧ (0 ≤ cents)%Z
    ∧ n !! "availability" = Some (VStr InStock)
    ∧ n !! "brand" = Some (VStr default_vendor)
    ∧ n !! "url" = Some (VStr url)
    ∧ n !! "tags" = Some (VList [])
    ∧ n !! "variants" = Some (VList [])
    ∧ n !! "product_id"
      = Some (VStr (from_option (λ slug, slug) "None" (search_product_slug url))).
Proof.
  intros Hf. apply fallback_record_fields in Hf
    as (page & found & _ & Hfound & Hurl & Hvendor & Hname & Hdesc & Hprice
        & Himages & Hav & Htags & Htype & Hvars & Hid).
  assert (Hcents : (0 ≤ default 0 found)%Z).
  { destruct found as [c|]; [exact (scan_price_nonneg _ _ _ Hfound)|reflexivity]. }
  assert (Hn : normalize_product r
               = Ok (product_dict
                       (VStr (from_option (λ slug, slug) "None" (search_product_slug url)))
                       (VStr (default EmptyString (first_text page name_selectors)))
                       (VStr (default EmptyString (first_text page desc_selectors)))
                       (VStr default_vendor) (VStr "") (VList []) (VStr url)
                       (VList (VStr <$> scan_images page img_selectors []))
                       (VInt (default 0%Z found)) (VStr InStock) (VList []))).
  { unfold normalize_product. rewrite (price_cents_of_int _ _ Hprice).
    unfold get, get_or.
    rewrite Hurl, Hvendor, Hname, Hdesc, Himages, Hav, Htags, Htype, Hvars, Hid.
    simpl. rewrite !py_or_str.
    destruct (search_product_slug url); reflexivity. }
  eexists _, (default 0%Z found). split; [exact Hn|].
  repeat (split; [first [exact Hcents|apply product_dict_lookups]|]).
  apply product_dict_lookups.
Qed.

End ExtractedRecords.

Lemma fallback_record_normalizes_witness :
  let E := scripted (Ok None) (Ok VNone) sample_page in
  let url := "https://shop.example/products/blue-mug" in
  let r : gmap string value :=
    <["gid" := VStr "gid://shopify/Product/blue-mug"]>
    (<["id" := VStr "blue-mug"]>
    (<["price" := VInt 15000]>
    (<["images" := VList [VStr "https://cdn.shopify.com/x.jpg"]]>
       (initial_record url)))) in
  @_fallback_extraction E "<html>" url = Ok (Some r)
  ∧ ∃ n cents, @normalize_product E r = Ok n
               ∧ n !! "price_cents" = Some (VInt cents) ∧ (0 ≤ cents)%Z.
Proof.
  intros E url r.
  assert (Hf : @_fallback_extraction E "<html>" url = Ok (Some r)) by reflexivity.
  split; [exact Hf|].
  destruct (@fallback_record_normalizes E _ _ _ Hf) as (n & cents & Hn & Hc & Hpos & _).
  exists n, cents. auto.
Defined.

(** ** Invariants of the records the extraction returns *)

Section Extraction.
Context `{Externals}.

Lemma fix_vendor_truthy (d : gmap string value) :
  truthy (get (fix_vendor d) "vendor") = true.
Proof.
  unfold fix_vendor. destruct (truthy (get d "vendor")) eqn:Ht; simpl; [exact Ht|].
  unfold get. rewrite lookup_insert_eq. reflexivity.
Qed.

Lemma fix_images_list (page : soup) (d : gmap string value) :
  is_list (get (fix_images page d) "images") = true.
Proof.
  unfold fix_images.
  destruct (truthy (get d "images")), (is_list (get d "images")) eqn:Hl; simpl;
    try exact Hl; unfold get; rewrite lookup_insert_eq; reflexivity.
Qed.

Lemma fix_variants_list (page : soup) (d : gmap string value) :
  is_list (get (fix_variants page d) "variants") = true.
Proof.
  unfold fix_variants.
  destruct (truthy (get d "variants")), (is_list (get d "variants")) eqn:Hl; simpl;
    try exact Hl; unfold get; rewrite lookup_insert_eq; reflexivity.
Qed.

Lemma fixed_record_invariants (d : gmap string value) (html_content url : string)
  (fixed : gmap string value) :
  _apply_fallback_fixes d html_content url = Ok fixed →
  fixed !! "url" = d !! "url"
  ∧ truthy (get fixed "vendor") = true
  ∧ is_list (get fixed "images") = true
  ∧ is_list (get fixed "variants") = true.
Proof.
  intros Hf. apply apply_fallback_fixes_inv in Hf as (page & d3 & _ & Hd3 & ->).
  pose proof (λ k, fix_price_frame _ _ _ k Hd3) as Hprice.
  split; [|split; [|split]].
  - rewrite fix_variants_frame, fix_description_frame, fix_images_frame,
      Hprice, fix_id_frame by discriminate.
    apply fix_vendor_frame. discriminate.
  - etransitivity; [|exact (fix_vendor_truthy d)]. apply f_equal, get_lookup.
    rewrite fix_variants_frame, fix_description_frame, fix_images_frame,
      Hprice, fix_id_frame by discriminate.
    reflexivity.
  - etransitivity; [|exact (fix_images_list page d3)]. apply f_equal, get_lookup.
    rewrite fix_variants_frame, fix_description_frame by discriminate. reflexivity.
  - apply fix_variants_list.
Qed.

Lemma fallback_record_invariants (html_content url : string) (r : gmap string value) :
  _fallback_extraction html_content url = Ok (Some r) →
  r !! "url" = Some (VStr url)
  ∧ truthy (get r "vendor") = true
  ∧ is_list (get r "images") = true
  ∧ is_list (get r "variants") = true.
Proof.
  intros Hf. apply fallback_record_fields in Hf
    as (page & found & _ & _ & Hurl & Hvendor & _ & _ & _ & Himages & _ & _ & _
        & Hvars & _).
  unfold get. rewrite Hurl, Hvendor, Himages, Hvars. repeat split.
Qed.

Lemma fallback_never_raises (html_content url : string) :
  ∃ r, _fallback_extraction html_content url = Ok r.
Proof.
  unfold _fallback_extraction.
  destruct (fallback_scan html_content url); simpl; eauto.
Qed.

Lemma primary_record_invariants (html_content url : string) (r : gmap string value) :
  primary_attempt html_content url = Ok (Some r) →
  r !! "url" = Some (VStr url)
  ∧ truthy (get r "vendor") = true
  ∧ is_list (get r "images") = true
  ∧ is_list (get r "variants") = true.
Proof.
  unfold primary_attempt. intros Hp.
  apply bind_ok_inv in Hp as (message & _ & Hp).
  apply bind_ok_inv in Hp as (content & _ & Hp).
  destruct (search_json_object content) as [json_match|];
    [|exact (fallback_record_invariants _ _ _ Hp)].
  apply bind_ok_inv in Hp as (parsed & _ & Hp).
  apply bind_ok_inv in Hp as (d0 & Hset & Hp).
  apply bind_ok_inv in Hp as (fixed & Hfix & [= <-]).
  destruct parsed as [| | | | | |d]; try discriminate Hset.
  injection Hset as <-.
  destruct (fixed_record_invariants _ _ _ _ Hfix) as (Hurl & Hrest).
  split; [|exact Hrest]. rewrite Hurl. apply lookup_insert_eq.
Qed.

Lemma extracted_record_invariants_aux (html_content url : string) :
  (∃ result, extract_product_data_with_gpt html_content url = Ok result)
  ∧ (∀ r, extract_product_data_with_gpt html_content url = Ok (Some r) →
          r !! "url" = Some (VStr url)
          ∧ truthy (get r "vendor") = true
          ∧ is_list (get r "images") = true
          ∧ is_list (get r "variants") = true).
Proof.
  unfold extract_product_data_with_gpt.
  destruct (primary_attempt html_content url) as [result|e] eqn:Hp; simpl.
  - split; [eauto|]. intros r [= ->]. exact (primary_record_invariants _ _ _ Hp).
  - split; [apply fallback_never_raises|]. apply fallback_record_invariants.
Qed.

(** X4: [extract_product_data_with_gpt] never raises, and every record it
    returns, from the completion service or from the structural fallback,
    carries the URL of the page under [url], a truthy vendor, and lists
    under [images] and [variants]. *)
Theorem extracted_record_invariants (html_content url : string) :
  (∃ result, extract_product_data_with_gpt html_content url = Ok result)
  ∧ (∀ r, extract_product_data_with_gpt html_content url = Ok (Some r) →
          r !! "url" = Some (VStr url)
          ∧ truthy (get r "vendor") = true
          ∧ is_list (get r "images") = true
          ∧ is_list (get r "variants") = true).
Proof. exact (extracted_record_invariants_aux html_content url). Qed.

(** X11: [scrape_product_page] never raises; it gives [None] when the page
    cannot be fetched; and a record it returns carries the URL asked for,
    a truthy vendor, and lists under [images] and [variants]. *)
Theorem scraped_page_result (url : string) :
  (∃ result, scrape_product_page url = Ok result)
  ∧ (∀ e, session_get url = Raise e → scrape_product_page url = Ok None)
  ∧ (∀ r, scrape_product_page url = Ok (Some r) →
          r !! "url" = Some (VStr url)
          ∧ truthy (get r "vendor") = true
          ∧ is_list (get r "images") = true
          ∧ is_list (get r "variants") = true).
Proof.
  unfold scrape_product_page. split; [|split].
  - destruct (_ ≫= _); simpl; eauto.
  - intros e He. rewrite He. reflexivity.
  - intros r Hs. unfold try_except, mbind, result_bind in Hs. cbv beta in Hs.
    destruct (session_get url) as [body|e]; [|discriminate Hs].
    destruct (extracted_record_invariants_aux body url) as (_ & Hinv).
    destruct (extract_product_data_with_gpt body url) as [[d|]|e];
      try discriminate Hs.
    destruct (truthy (VDict d)); [|discriminate Hs].
    injection Hs as <-. exact (Hinv d eq_refl).
Qed.

End Extraction.

Lemma extracted_record_invariants_witness :
  let E := scripted (Ok (Some "Here it is: {}")) (Ok (VDict ∅)) sample_page in
  let url := "https://shop.example/products/w" in
  let r : gmap string value :=
    <["variants" := VList []]>
    (<["images" := VList [VStr "https://cdn.shopify.com/x.jpg"]]>
    (<["price" := VInt 15000]>
    (<["vendor" := VStr default_vendor]> (<["url" := VStr url]> ∅)))) in
  @extract_product_data_with_gpt E "<html>" url = Ok (Some r)
  ∧ r !! "url" = Some (VStr url)
  ∧ truthy (get r "vendor") = true.
Proof.
  intros E url r.
  assert (He : @extract_product_data_with_gpt E "<html>" url = Ok (Some r))
    by reflexivity.
  split; [exact He|].
  destruct (proj2 (@extracted_record_invariants E "<html>" url) r He)
    as (Hurl & Hvendor & _).
  split; [exact Hurl|exact Hvendor].
Defined.

Lemma scraped_page_result_witness :
  let url := "https://shop.example/products/w" in
  let E := served (λ u, if String.eqb u url then Ok "<html>"
                        else Raise (OtherError "404"))
             (λ _, Raise (OtherError "not XML")) sample_page in
  let r : gmap string value :=
    <["gid" := VStr "gid://shopify/Product/w"]>
    (<["id" := VStr "w"]>
    (<["price" := VInt 15000]>
    (<["images" := VList [VStr "https://cdn.shopify.com/x.jpg"]]>
       (initial_record url)))) in
  @scrape_product_page E url = Ok (Some r)
  ∧ r !! "url" = Some (VStr url)
  ∧ @scrape_product_page E "https://shop.example/products/gone" = Ok None.
Proof.
  intros url E r.
  assert (Hs : @scrape_product_page E url = Ok (Some r)) by reflexivity.
  destruct (@scraped_page_result E url) as (_ & _ & Hinv).
  destruct (@scraped_page_result E "https://shop.example/products/gone")
    as (_ & Hgone & _).
  split; [exact Hs|]. split; [exact (proj1 (Hinv r Hs))|].
  exact (Hgone (OtherError "404") eq_refl).
Defined.

(** ** The URLs [get_product_urls_from_sitemap] returns *)

Lemma product_locs_filtered (namespace : string) (url_elements : list xml) (u : string) :
  u ∈ product_locs namespace url_elements →
  u ≠ EmptyString ∧ is_product_url u = true
  ∧ ∃ url_elem loc, url_elem ∈ url_elements
                    ∧ find url_elem (namespace +:+ "loc") = Some loc
                    ∧ xml_text loc = Some u.
Proof.
  unfold product_locs. rewrite list_elem_of_omap. intros (url_elem & Hin & Hu).
  destruct (find url_elem (namespace +:+ "loc")) as [loc|] eqn:Hfind; [|discriminate].
  destruct (xml_text loc) as [t|] eqn:Ht; [|discriminate].
  destruct (nonempty t) eqn:Hne; [|discriminate]. simpl in Hu.
  destruct (is_product_url t) eqn:Hp; [|discriminate]. injection Hu as <-.
  split; [intros ->; discriminate Hne|]. split; [exact Hp|].
  exists url_elem, loc. auto.
Qed.

Lemma scan_namespaces_from_one (root : xml) (candidates : list string) (u : string) :
  u ∈ scan_namespaces root candidates →
  ∃ namespace, namespace ∈ candidates
               ∧ u ∈ product_locs namespace (findall root (namespace +:+ "url")).
Proof.
  induction candidates as [|namespace rest IH]; [intros Hu; inversion Hu|].
  rewrite scan_namespaces_cons.
  destruct (findall root (namespace +:+ "url")) as [|e es] eqn:Hf.
  - intros Hu. destruct (IH Hu) as (ns & Hns & Hin). exists ns. split; [right; exact Hns|exact Hin].
  - intros Hu. exists namespace. split; [left|]. rewrite Hf. exact Hu.
Qed.

(** X2: [get_product_urls_from_sitemap] never raises and returns the empty
    list when the sitemap cannot be fetched or parsed; every URL it returns
    is the non-empty text of the first [loc] child of a [url] element of the
    document, and holds "/products/" or "/product/" once put in lower
    case. *)
Theorem sitemap_product_urls_are_filtered `{Externals} (sitemap_url : string) :
  (∃ urls, get_product_urls_from_sitemap sitemap_url = Ok urls)
  ∧ (∀ e, session_get sitemap_url = Raise e →
          get_product_urls_from_sitemap sitemap_url = Ok [])
  ∧ (∀ body e, session_get sitemap_url = Ok body → ET_fromstring body = Raise e →
               get_product_urls_from_sitemap sitemap_url = Ok [])
  ∧ (∀ urls u,
       get_product_urls_from_sitemap sitemap_url = Ok urls → u ∈ urls →
       u ≠ EmptyString
       ∧ (contains "/products/" (lower u) = true ∨ contains "/product/" (lower u) = true)
       ∧ ∃ body root namespace url_elem loc,
           session_get sitemap_url = Ok body ∧ ET_fromstring body = Ok root
           ∧ namespace ∈ namespaces
           ∧ url_elem ∈ findall root (namespace +:+ "url")
           ∧ find url_elem (namespace +:+ "loc") = Some loc
           ∧ xml_text loc = Some u).
Proof.
  unfold get_product_urls_from_sitemap, try_except, mbind, result_bind.
  split; [|split; [|split]].
  - destruct (session_get sitemap_url) as [body|]; [|eauto].
    destruct (ET_fromstring body); eauto.
  - intros e ->. reflexivity.
  - intros body e -> ->. reflexivity.
  - intros urls u Hg Hu.
    destruct (session_get sitemap_url) as [body|];
      [|injection Hg as <-; inversion Hu].
    destruct (ET_fromstring body) as [root|] eqn:Hroot;
      [|injection Hg as <-; inversion Hu].
    injection Hg as <-. unfold product_urls_of_root in Hu.
    apply scan_namespaces_from_one in Hu as (ns & Hns & Hu).
    apply product_locs_filtered in Hu as (Hne & Hp & url_elem & loc & Hin & Hfind & Ht).
    split; [exact Hne|]. split.
    + unfold is_product_url in Hp. apply orb_true_iff in Hp. exact Hp.
    + exists body, root, ns, url_elem, loc.
      repeat split; first [reflexivity|assumption].
Qed.

Lemma sitemap_product_urls_are_filtered_witness :
  let E := served (λ _, Ok "<urlset/>")
             (λ _, Ok (encode sitemap_ns sample_sitemap)) blank_page in
  @get_product_urls_from_sitemap E "https://shop.example/sitemap_products_1.xml"
  = Ok ["https://shop.example/products/widget"]
  ∧ contains "/products/" (lower "https://shop.example/products/widget") = true.
Proof.
  intros E.
  assert (Hg : @get_product_urls_from_sitemap E
                 "https://shop.example/sitemap_products_1.xml"
               = Ok ["https://shop.example/products/widget"]) by reflexivity.
  split; [exact Hg|].
  destruct (@sitemap_product_urls_are_filtered E
              "https://shop.example/sitemap_products_1.xml") as (_ & _ & _ & Hall).
  destruct (Hall _ "https://shop.example/products/widget" Hg) as (_ & [Hp|Hp] & _);
    [left|exact Hp|vm_compute in Hp; discriminate Hp].
Defined.

(** ** [get_sitemap_urls] *)







(** ** What [scrape_all_products] returns *)

Section Crawl.
Context `{Externals} `{Urllib}.

Lemma get_product_urls_filtered (sitemap_url : string) (urls : list string) (u : string) :
  get_product_urls_from_sitemap sitemap_url = Ok urls → u ∈ urls →
  is_product_url u = true.
Proof.
  unfold get_product_urls_from_sitemap, try_except, mbind, result_bind.
  intros Hg Hu.
  destruct (session_get sitemap_url) as [body|]; [|injection Hg as <-; inversion Hu].
  destruct (ET_fromstring body) as [root|]; [|injection Hg as <-; inversion Hu].
  injection Hg as <-. unfold product_urls_of_root in Hu.
  apply scan_namespaces_from_one in Hu as (ns & _ & Hu).
  apply product_locs_filtered in Hu as (_ & Hp & _). exact Hp.
Qed.

Lemma elem_of_concat (u : string) (lists : list (list string)) :
  u ∈ concat lists → ∃ l, u ∈ l ∧ l ∈ lists.
Proof.
  induction lists as [|l lists IH]; simpl; [intros Hu; inversion Hu|].
  rewrite elem_of_app. intros [Hu|Hu].
  - exists l. split; [exact Hu|left].
  - destruct (IH Hu) as (l' & Hl' & Hin). exists l'. split; [exact Hl'|right; exact Hin].
Qed.

Lemma gathered_urls_filtered (base_url : string) (all_product_urls : list string)
  (u : string) :
  gather_product_urls base_url = Ok all_product_urls → u ∈ all_product_urls →
  is_product_url u = true.
Proof.
  unfold gather_product_urls. intros Hg Hu.
  apply bind_ok_inv in Hg as (sitemaps & _ & Hg).
  apply bind_ok_inv in Hg as (found & Hfound & [= <-]).
  apply elem_of_concat in Hu as (urls & Hu & Hurls).
  apply mapM_ok_Forall2 in Hfound.
  apply list_elem_of_lookup in Hurls as (i & Hi).
  destruct (Forall2_lookup_r _ _ _ _ _ Hfound Hi) as (sitemap & _ & Hs).
  exact (get_product_urls_filtered _ _ _ Hs Hu).
Qed.

Lemma completion_loop_elem (completed : list string) (d : gmap string value) :
  d ∈ completion_loop completed
  ↔ ∃ u, u ∈ completed ∧ scrape_product_page u = Ok (Some d).
Proof.
  unfold completion_loop. rewrite list_elem_of_omap. split.
  - intros (u & Hu & Hd). exists u. split; [exact Hu|].
    destruct (scrape_product_page u) as [[d'|]|]; try discriminate.
    injection Hd as <-. reflexivity.
  - intros (u & Hu & Hd). exists u. split; [exact Hu|]. rewrite Hd. reflexivity.
Qed.

Lemma scraped_url (u : string) (d : gmap string value) :
  scrape_product_page u = Ok (Some d) → d !! "url" = Some (VStr u).
Proof.
  intros Hs. unfold scrape_product_page, try_except, mbind, result_bind in Hs.
  cbv beta in Hs.
  destruct (session_get u) as [body|e]; [|discriminate Hs].
  destruct (extracted_record_invariants_aux body u) as (_ & Hinv).
  destruct (extract_product_data_with_gpt body u) as [[d'|]|e]; try discriminate Hs.
  destruct (truthy (VDict d')); [|discriminate Hs].
  injection Hs as <-. exact (proj1 (Hinv d' eq_refl)).
Qed.

Lemma completion_loop_distinct (completed : list string) :
  NoDup completed → NoDup ((λ d, d !! "url") <$> completion_loop completed).
Proof.
  induction 1 as [|u l Hu Hnd IH]; [constructor|].
  unfold completion_loop. rewrite omap_cons. fold (completion_loop l).
  destruct (scrape_product_page u) as [[d|]|] eqn:Hs; try exact IH.
  rewrite fmap_cons. constructor; [|exact IH].
  rewrite (scraped_url _ _ Hs). intros Hin.
  apply list_elem_of_fmap in Hin as (d' & Hd' & Hin).
  apply completion_loop_elem in Hin as (u' & Hu' & Hs').
  rewrite (scraped_url _ _ Hs') in Hd'. injection Hd' as <-. contradiction.
Qed.

Lemma completion_loop_length (completed : list string) :
  (length (completion_loop completed) ≤ length completed)%nat.
Proof.
  induction completed as [|u l IH]; [reflexivity|].
  unfold completion_loop. rewrite omap_cons. fold (completion_loop l).
  destruct (scrape_product_page u) as [[d|]|]; simpl; lia.
Qed.

(** X12: In whatever order the pool completes its work, the list
    [scrape_all_products] returns holds at most one record per distinct
    product URL: every record is what [scrape_product_page] returned for a
    URL gathered from the sitemaps, a URL that passed the product filter and
    that the record carries under [url]; no two records carry the same URL;
    and there are no more records than URLs gathered. *)
Theorem scraped_products_are_distinct (base_url : string)
  (products : list (gmap string value)) :
  scrape_all_products_returns base_url products →
  ∃ all_product_urls,
    gather_product_urls base_url = Ok all_product_urls
    ∧ (∀ d, d ∈ products →
            ∃ u, u ∈ all_product_urls ∧ is_product_url u = true
                 ∧ scrape_product_page u = Ok (Some d)
                 ∧ d !! "url" = Some (VStr u))
    ∧ NoDup ((λ d, d !! "url") <$> products)
    ∧ (length products ≤ length all_product_urls)%nat.
Proof.
  intros (all_product_urls & completed & Hg & Hperm & ->).
  exists all_product_urls. split; [exact Hg|].
  assert (Hsub : ∀ u, u ∈ completed ↔ u ∈ all_product_urls).
  { intros u. rewrite Hperm. unfold submitted_urls, unique_urls.
    rewrite list_fmap_id, elem_of_elements, elem_of_list_to_set. reflexivity. }
  assert (Hnd : NoDup completed).
  { rewrite Hperm. unfold submitted_urls, unique_urls. rewrite list_fmap_id.
    apply NoDup_elements. }
  split; [|split].
  - intros d Hd. apply completion_loop_elem in Hd as (u & Hu & Hs).
    apply Hsub in Hu. exists u. split; [exact Hu|].
    split; [exact (gathered_urls_filtered _ _ _ Hg Hu)|].
    split; [exact Hs|exact (scraped_url _ _ Hs)].
  - exact (completion_loop_distinct _ Hnd).
  - etransitivity; [apply completion_loop_length|].
    apply submseteq_length, NoDup_submseteq; [exact Hnd|].
    intros u Hu. apply Hsub. exact Hu.
Qed.

End Crawl.

Lemma scraped_products_are_distinct_witness :
  let widget := "https://shop.example/products/widget" in
  let E := served
             (λ u, if String.eqb u "https://shop.example/sitemap.xml" then Ok "index"
                   else if String.eqb u "https://shop.example/sitemap_products_1.xml"
                   then Ok "products"
                   else if String.eqb u widget then Ok "<html>"
                   else Raise (OtherError "404"))
             (λ body, if String.eqb body "index"
                      then Ok (encode sitemap_ns sample_index)
                      else Ok (encode sitemap_ns sample_sitemap))
             sample_page in
  let r : gmap string value :=
    <["gid" := VStr "gid://shopify/Product/widget"]>
    (<["id" := VStr "widget"]>
    (<["price" := VInt 15000]>
    (<["images" := VList [VStr "https://cdn.shopify.com/x.jpg"]]>
       (initial_record widget)))) in
  @scrape_all_products_returns E appending "https://shop.example/" [r]
  ∧ NoDup ((λ d : gmap string value, d !! "url") <$> [r])
  ∧ @gather_product_urls E appending "https://shop.example/" = Ok [widget].
Proof.
  intros widget E r.
  assert (Hg : @gather_product_urls E appending "https://shop.example/" = Ok [widget])
    by reflexivity.
  assert (Hret : @scrape_all_products_returns E appending "https://shop.example/" [r]).
  { exists [widget], [widget]. split; [exact Hg|]. split; reflexivity. }
  split; [exact Hret|].
  destruct (@scraped_products_are_distinct E appending _ _ Hret)
    as (urls & _ & _ & Hnd & _).
  split; [exact Hnd|exact Hg].
Defined.

(** ** The values [_apply_fallback_fixes] writes *)

Section FixValues.
Context `{Externals}.

Lemma scan_images_all (page : soup) (selectors : list string) :
  Forall (λ src, startswith "http" src = true ∧ contains "cdn.shopify.com" src = true)
    (scan_images page selectors []).
Proof.
  apply Forall_forall. intros src Hsrc.
  destruct (scan_images_from_one_selector page selectors) as [He|(sel & _ & He)];
    rewrite He in Hsrc; [inversion Hsrc|exact (cdn_images_spec _ _ Hsrc)].
Qed.

Lemma fix_id_effect (page : soup) (d : gmap string value) :
  (fix_id page d !! "id" = d !! "id" ∧ fix_id page d !! "gid" = d !! "gid")
  ∨ ∃ product_id,
      product_id ≠ EmptyString
      ∧ (truthy (get d "id") = false ∨ get d "id" = VStr "None")
      ∧ fix_id page d !! "id" = Some (VStr product_id)
      ∧ fix_id page d !! "gid" = Some (VStr ("gid://shopify/Product/" +:+ product_id)).
Proof.
  unfold fix_id.
  destruct (negb (truthy (get d "id")) || eq_str (get d "id") "None") eqn:Hguard;
    [|left; split; reflexivity].
  destruct (scan_product_id page id_selectors None) as [product_id|];
    [|left; split; reflexivity].
  destruct (nonempty product_id) eqn:Hne; [|left; split; reflexivity].
  right. exists product_id. split; [intros ->; discriminate Hne|]. split.
  - apply orb_true_iff in Hguard as [Hg|Hg].
    + left. apply negb_true_iff in Hg. exact Hg.
    + right. unfold eq_str in Hg. destruct (get d "id"); try discriminate Hg.
      apply String.eqb_eq in Hg. rewrite Hg. reflexivity.
  - split; [rewrite lookup_insert_ne, lookup_insert_eq by discriminate; reflexivity|].
    rewrite lookup_insert_eq. reflexivity.
Qed.

(** X5: Whatever [_apply_fallback_fixes] changes, it changes to a value it
    scanned or to a fixed default: the vendor becomes the default vendor;
    [id] and [gid] change together, to a non-empty identifier and to
    "gid://shopify/Product/" followed by it, and only when the [id] was
    falsy or the text 'None'; the price becomes a non-negative integer; the
    images become a list of absolute URLs on the Shopify CDN; the variants
    become the empty list. *)
Theorem fixes_write_scanned_values (product_data : gmap string value)
  (html_content url : string) (fixed : gmap string value) :
  _apply_fallback_fixes product_data html_content url = Ok fixed →
  (fixed !! "vendor" = product_data !! "vendor"
   ∨ fixed !! "vendor" = Some (VStr default_vendor))
  ∧ ((fixed !! "id" = product_data !! "id" ∧ fixed !! "gid" = product_data !! "gid")
     ∨ ∃ product_id,
         product_id ≠ EmptyString
         ∧ (truthy (get product_data "id") = false
            ∨ get product_data "id" = VStr "None")
         ∧ fixed !! "id" = Some (VStr product_id)
         ∧ fixed !! "gid" = Some (VStr ("gid://shopify/Product/" +:+ product_id)))
  ∧ (fixed !! "price" = product_data !! "price"
     ∨ ∃ cents, (0 ≤ cents)%Z ∧ fixed !! "price" = Some (VInt cents))
  ∧ (fixed !! "images" = product_data !! "images"
     ∨ ∃ srcs, fixed !! "images" = Some (VList (VStr <$> srcs))
               ∧ Forall (λ src, startswith "http" src = true
                                ∧ contains "cdn.shopify.com" src = true) srcs)
  ∧ (fixed !! "variants" = product_data !! "variants"
     ∨ fixed !! "variants" = Some (VList [])).
Proof.
  intros Hf. apply apply_fallback_fixes_inv in Hf as (page & d3 & _ & Hd3 & ->).
  pose proof (λ k, fix_price_frame _ _ _ k Hd3) as Hprice.
  assert (Hearly : ∀ k, k ≠ "vendor" → k ≠ "id" → k ≠ "gid" → k ≠ "price" →
                        d3 !! k = product_data !! k).
  { intros k ? ? ? ?. rewrite Hprice by assumption.
    rewrite fix_id_frame by assumption. apply fix_vendor_frame. assumption. }
  split; [|split; [|split; [|split]]].
  - rewrite fix_variants_frame, fix_description_frame, fix_images_frame,
      Hprice, fix_id_frame by discriminate.
    unfold fix_vendor. destruct (negb _); [right; apply lookup_insert_eq|left; reflexivity].
  - rewrite !(fix_variants_frame _ _ "id"), !(fix_variants_frame _ _ "gid"),
      !(fix_description_frame _ _ "id"), !(fix_description_frame _ _ "gid"),
      !(fix_images_frame _ _ "id"), !(fix_images_frame _ _ "gid"),
      (Hprice "id"), (Hprice "gid") by discriminate.
    assert (Hid : fix_vendor product_data !! "id" = product_data !! "id")
      by (apply fix_vendor_frame; discriminate).
    assert (Hgid : fix_vendor product_data !! "gid" = product_data !! "gid")
      by (apply fix_vendor_frame; discriminate).
    destruct (fix_id_effect page (fix_vendor product_data))
      as [[H1 H2]|(pid & Hne & Hwhy & H1 & H2)].
    + left. split; congruence.
    + right. exists pid. split; [exact Hne|].
      split; [rewrite <- (get_lookup _ _ _ Hid); exact Hwhy|]. split; assumption.
  - rewrite fix_variants_frame, fix_description_frame, fix_images_frame by discriminate.
    assert (Hsame : fix_id page (fix_vendor product_data) !! "price"
                    = product_data !! "price").
    { rewrite fix_id_frame by discriminate. apply fix_vendor_frame. discriminate. }
    unfold fix_price in Hd3. destruct (_ || _) in Hd3;
      [|injection Hd3 as <-; left; exact Hsame].
    apply bind_ok_inv in Hd3 as (found & Hfound & [= <-]).
    rewrite lookup_set_found_eq. destruct found as [cents|]; [|left; exact Hsame].
    right. exists cents. split; [exact (scan_price_nonneg _ _ _ Hfound)|reflexivity].
  - rewrite fix_variants_frame, fix_description_frame by discriminate.
    unfold fix_images. destruct (_ || _); [|left; apply Hearly; discriminate].
    right. exists (scan_images page img_selectors []).
    split; [apply lookup_insert_eq|apply scan_images_all].
  - unfold fix_variants. destruct (_ || _); [right; apply lookup_insert_eq|].
    left. rewrite fix_description_frame, fix_images_frame by discriminate.
    apply Hearly; discriminate.
Qed.

End FixValues.

Lemma fixes_write_scanned_values_witness :
  let E := scripted (Ok None) (Ok VNone) sample_page in
  let product_data : gmap string value :=
    <["price" := VInt 0]> (<["id" := VStr "None"]> ∅) in
  let fixed : gmap string value :=
    <["variants" := VList []]>
    (<["images" := VList [VStr "https://cdn.shopify.com/x.jpg"]]>
    (<["price" := VInt 15000]>
    (<["vendor" := VStr default_vendor]> product_data))) in
  @_apply_fallback_fixes E product_data "<html>" "https://shop.example/products/w"
    = Ok fixed
  ∧ (fixed !! "price" = product_data !! "price"
     ∨ ∃ cents, (0 ≤ cents)%Z ∧ fixed !! "price" = Some (VInt cents)).
Proof.
  intros E product_data fixed.
  assert (Hf : @_apply_fallback_fixes E product_data "<html>"
                 "https://shop.example/products/w" = Ok fixed) by reflexivity.
  split; [exact Hf|].
  destruct (@fixes_write_scanned_values E _ _ _ _ Hf) as (_ & _ & Hprice & _).
  exact Hprice.
Defined.
